(** * Full-Stack-RAG: the ingestion and QA pipeline, embedded in Rocq

    The development follows the two TypeScript sources:

    - [api/src/server.ts] (the HTTP entry point, and the notes module with
      [loadPdfFromUrl], [deletePagesFromPdf], [generateNotes],
      [convertPdfToDocuments] and [takeNotes]);
    - [web/src/pages/index.tsx] (the form page with its own
      [processPagesToDelete] and its two submit handlers, and the QA module
      with [qaModel] and [qaOnPaper]).

    Pure code is translated to functions.  Code that awaits collaborators
    (file system, HTTP, parsers, language model, database) is written in a
    small monad that threads the store, counts the calls made so far,
    records every call in a trace and propagates JavaScript exceptions. *)

From Stdlib Require Import ZArith Ascii String List Bool Lia Sorted.
From stdpp Require Import base option strings gmap pretty.

Import ListNotations.
Local Open Scope string_scope.
Local Open Scope list_scope.
Local Open Scope Z_scope.

(** ** JavaScript values used by the sources *)

Module JS.

(** A JavaScript number as the sources produce it: [parseInt] yields either
    [NaN] or an integer, and the only arithmetic applied afterwards is the
    subtraction of a small offset.  The integer is kept exact.  What a
    double does to a digit string beyond 2^53 (rounding, and [Infinity]
    beyond about 1.8e308) is not modelled: it changes neither the sign nor
    the fact of being [NaN], and statements below rely on nothing else for
    such values. *)
Inductive number : Type :=
| NaN : number
| Num : Z -> number.

Definition isNaN (n : number) : bool :=
  match n with NaN => true | Num _ => false end.

(** [n > k] on numbers: any comparison with [NaN] is false. *)
Definition gt (n : number) (k : Z) : bool :=
  match n with NaN => false | Num z => k <? z end.

(** [n - k] for an integer [k]. *)
Definition sub (n : number) (k : Z) : number :=
  match n with NaN => NaN | Num z => Num (z - k) end.

(** Truthiness of a string: every string but the empty one. *)
Definition truthy (s : string) : bool :=
  match s with EmptyString => false | String _ _ => true end.

(** Truthiness of a possibly missing string ([undefined] and [null] are
    falsy). *)
Definition truthy_opt (o : option string) : bool :=
  match o with None => false | Some s => truthy s end.

Definition code (c : ascii) : Z := Z.of_N (N_of_ascii c).

(** White space and line terminators among the code units 0..255: TAB, LF,
    VT, FF, CR, SP and NBSP.  Strings are sequences of such code units. *)
Definition isWhiteSpace (c : ascii) : bool :=
  let n := code c in
  ((9 <=? n) && (n <=? 13)) || (n =? 32) || (n =? 160).

Fixpoint trimStart (s : string) : string :=
  match s with
  | EmptyString => EmptyString
  | String c r => if isWhiteSpace c then trimStart r else s
  end.

Fixpoint trimEnd (s : string) : string :=
  match s with
  | EmptyString => EmptyString
  | String c r =>
      match trimEnd r with
      | EmptyString => if isWhiteSpace c then EmptyString
                       else String c EmptyString
      | r' => String c r'
      end
  end.

(** [String.prototype.trim] *)
Definition trim (s : string) : string := trimEnd (trimStart s).

(** [s.split(sep)] for a one-character separator: never the empty list, the
    empty string splits into one empty token. *)
Fixpoint split (sep : ascii) (s : string) : list string :=
  match s with
  | EmptyString => [EmptyString]
  | String c r =>
      if Ascii.eqb c sep then EmptyString :: split sep r
      else match split sep r with
           | [] => [String c EmptyString]
           | tok :: toks => String c tok :: toks
           end
  end.

(** [s.startsWith(p)] *)
Fixpoint startsWith (p s : string) : bool :=
  match p, s with
  | EmptyString, _ => true
  | String a p', String b s' => Ascii.eqb a b && startsWith p' s'
  | String _ _, EmptyString => false
  end.

(** [s.includes(p)] *)
Fixpoint includes (p s : string) : bool :=
  startsWith p s ||
  match s with
  | EmptyString => false
  | String _ s' => includes p s'
  end.

(** Value of a character as a digit, for the radixes 10 and 16. *)
Definition digitValue (c : ascii) : option Z :=
  let n := code c in
  if (48 <=? n) && (n <=? 57) then Some (n - 48)
  else if (97 <=? n) && (n <=? 102) then Some (n - 87)
  else if (65 <=? n) && (n <=? 70) then Some (n - 55)
  else None.

Definition radixDigit (R : Z) (c : ascii) : option Z :=
  match digitValue c with
  | Some d => if d <? R then Some d else None
  | None => None
  end.

(** The longest prefix of [s] made of radix-[R] digits, as digit values. *)
Fixpoint digitsPrefix (R : Z) (s : string) : list Z :=
  match s with
  | EmptyString => []
  | String c r =>
      match radixDigit R c with
      | Some d => d :: digitsPrefix R r
      | None => []
      end
  end.

Definition digitsValue (R : Z) (ds : list Z) : Z :=
  fold_left (fun acc d => acc * R + d) ds 0.

(** [parseInt(s)] without a radix: leading white space is skipped, a sign
    is read, a [0x]/[0X] prefix selects radix 16, and the longest prefix of
    digits is the value; no digit at all gives [NaN]. *)
Definition parseInt (input : string) : number :=
  let s := trimStart input in
  let '(sign, s) :=
    match s with
    | String "-" r => (-1, r)
    | String "+" r => (1, r)
    | _ => (1, s)
    end in
  let '(R, s) :=
    match s with
    | String "0" (String "x" r) => (16, r)
    | String "0" (String "X" r) => (16, r)
    | _ => (10, s)
    end in
  match digitsPrefix R s with
  | [] => NaN
  | ds => Num (sign * digitsValue R ds)
  end.

End JS.

Export JS.

(** ** The request parser, in its two copies *)

Module Server.

(** [processPagesToDelete] of [api/src/server.ts]: split and parse, nothing
    is filtered. *)
Definition processPagesToDelete (pagesToDelete : string) : list number :=
  let numArr := map (fun num => parseInt (trim num)) (split "," pagesToDelete) in
  numArr.

End Server.

Module Web.

(** [processPagesToDelete] of [web/src/pages/index.tsx]: the same parse,
    followed by the filter [!Number.isNaN(n) && n > 0]. *)
Definition processPagesToDelete (pagesToDelete : string) : list number :=
  if negb (truthy pagesToDelete) then []
  else
    List.filter (fun n => negb (isNaN n) && gt n 0)
      (map (fun num => parseInt (trim num)) (split "," pagesToDelete)).

End Web.

(** ** Data of the pipeline *)

(** A PDF is seen through its sequence of pages; any other byte content is
    kept as it is and is not a PDF. *)
Definition Page : Type := string.

Inductive Buffer : Type :=
| PdfBytes (pages : list Page)
| OtherBytes (content : string).

(** A LangChain [Document]. *)
Record Document : Type := mkDocument {
  pageContent : string;
  metadata : gmap string string
}.

Record ArxivPaperNote : Type := mkNote {
  note : string;
  pageNumbers : list Z
}.

Record QAResponse : Type := mkQA {
  answer : string;
  followupQuestions : list string
}.

(** A row of the papers table as [getPaper] hands it back: the full text and
    the notes may be [null]. *)
Record PaperRow : Type := mkPaper {
  row_paper : option string;
  row_url : string;
  row_notes : option (list ArxivPaperNote);
  row_name : string
}.

Record QaRow : Type := mkQaRow {
  qa_question : string;
  qa_answer : string;
  qa_context : string;
  qa_followups : list string
}.

(** The request of [axios]. *)
Record AxiosConfig : Type := mkAxios {
  method : string;
  axios_url : string;
  responseType : string;
  timeout : Z
}.

(** What is thrown: an [Error] built by the sources with [new Error(msg)],
    or the rejection of a collaborator with its reason. *)
Inductive exn : Type :=
| Error (message : string)
| Rejection (reason : string).

Definition lf : string := String (ascii_of_nat 10) EmptyString.

(** [formatDocumentsAsString] of LangChain: the page contents joined by a
    blank line. *)
Definition formatDocumentsAsString (documents : list Document) : string :=
  String.concat (lf ++ lf)%string (map pageContent documents).

(** ** pdf-lib, as far as the sources use it *)

Module PDFDocument.

Definition load (pdf : Buffer) : exn + list Page :=
  match pdf with
  | PdfBytes pages => inr pages
  | OtherBytes _ => inl (Rejection "Failed to parse PDF document")
  end.

(** [removePage(index)]: the index is 0-based and checked against the
    current page count; an index that is not a number in range throws. *)
Definition removePage (doc : list Page) (index : number) : exn + list Page :=
  match index with
  | NaN => inl (Rejection "index must be of type number")
  | Num i =>
      if (0 <=? i) && (i <? Z.of_nat (length doc))
      then inr (delete (Z.to_nat i) doc)
      else inl (Rejection "index out of range")
  end.

(** The page that [addPage()] appends: it has no content. *)
Definition blankPage : Page := "".

(** [save()], with its default [addDefaultPage]: a document left without
    any page gets a blank one before it is serialised. *)
Definition save (doc : list Page) : Buffer :=
  match doc with
  | [] => PdfBytes [blankPage]
  | _ :: _ => PdfBytes doc
  end.

End PDFDocument.

(** ** Collaborators, trace and state *)

(** The helpers of the notes and QA modules; entering one is recorded with
    its arguments. *)
Inductive Fn : Type :=
| FnLoadPdfFromUrl (url : string)
| FnDeletePagesFromPdf (pdf : Buffer) (pagesToDelete : list number)
| FnConvertPdfToDocuments (pdf : Buffer)
| FnGenerateNotes (documents : list Document)
| FnQaModel (question : string) (documents : list Document)
            (notes : list ArxivPaperNote).

(** A call to a collaborator, with its arguments. *)
Inductive Call : Type :=
| ReadFile (path : string)
| HttpRequest (config : AxiosConfig)
| WriteFile (path : string) (data : Buffer)
| Unlink (path : string)
| UnstructuredLoad (path : string) (strategy : string) (timeoutMs : Z)
| PdfLoaderLoad (path : string)
| NotesChain (paper : string)
| QaChain (relevantDocuments notesText question : string)
| FromExistingIndex
| GetPaper (url : string)
| AddPaper (row : PaperRow)
| AddDocuments (docs : list Document)
| SimilaritySearch (query : string) (k : Z) (url : string)
| SaveQa (row : QaRow).

(** What a call came back with. *)
Inductive Answer : Type :=
| Failed (e : exn)
| Done
| Bytes (data : Buffer)
| Segments (docs : list Document)
| NotesOut (notes : list ArxivPaperNote)
| Answers (qa : list QAResponse)
| Found (row : option PaperRow).

Inductive Level : Type := LError | LWarn.

Inductive Event : Type :=
| Enter (f : Fn)
| Called (c : Call) (a : Answer)
| Console (level : Level) (label : string) (e : exn).

(** The part of the pipeline an event belongs to. *)
Inductive Stage : Type :=
| Fetch | Edit | Extract | Generate | Answering
| Database | Save | Index | Search | Record | Log.

Definition stage (e : Event) : Stage :=
  match e with
  | Enter (FnLoadPdfFromUrl _) => Fetch
  | Enter (FnDeletePagesFromPdf _ _) => Edit
  | Enter (FnConvertPdfToDocuments _) => Extract
  | Enter (FnGenerateNotes _) => Generate
  | Enter (FnQaModel _ _ _) => Answering
  | Called (ReadFile _) _ | Called (HttpRequest _) _ => Fetch
  | Called (WriteFile _ _) _ | Called (Unlink _) _
  | Called (UnstructuredLoad _ _ _) _ | Called (PdfLoaderLoad _) _ => Extract
  | Called (NotesChain _) _ => Generate
  | Called (QaChain _ _ _) _ => Answering
  | Called FromExistingIndex _ | Called (GetPaper _) _ => Database
  | Called (AddPaper _) _ => Save
  | Called (AddDocuments _) _ => Index
  | Called (SimilaritySearch _ _ _) _ => Search
  | Called (SaveQa _) _ => Record
  | Console _ _ _ => Log
  end.

(** How a promise of a collaborator settles. *)
Inductive outcome (A : Type) : Type :=
| Resolved (a : A)
| Rejected (reason : string).
Arguments Resolved {A} a.
Arguments Rejected {A} reason.

(** Result of [Promise.race([loader.load(), timer])]. *)
Inductive Race (A : Type) : Type :=
| Settled (o : outcome A)
| TimedOut.
Arguments Settled {A} o.
Arguments TimedOut {A}.

(** The world outside the process.  Every awaited call is answered as a
    function of the number of calls made before it and of its arguments,
    so that the same call may succeed once and fail later.  For the
    database the world only decides whether a call fails ([Some reason]);
    what a successful call does is given by the store below.  The value a
    collaborator rejects with is named by its [reason];
    [rejectionMessage] is the [message] property of that value, which only
    an [Error] or an object shaped like one has. *)
Record World : Type := mkWorld {
  OPENAI_API_KEY : option string;
  UNSTRUCTURED_API_KEY : option string;
  randomName : nat -> string;
  fileURLToPath : string -> outcome string;
  fsReadFile : nat -> string -> outcome Buffer;
  writeFile : nat -> string -> Buffer -> outcome unit;
  unlink : nat -> string -> outcome unit;
  axios : nat -> AxiosConfig -> outcome Buffer;
  unstructuredLoad : nat -> string -> Race (list Document);
  pdfLoaderLoad : nat -> string -> outcome (list Document);
  notesChain : nat -> string -> outcome (list ArxivPaperNote);
  qaChain : nat -> string -> string -> string -> outcome (list QAResponse);
  fromExistingIndex : nat -> outcome unit;
  getPaperFault : nat -> string -> option string;
  addPaperFault : nat -> PaperRow -> option string;
  addDocumentsFault : nat -> list Document -> option string;
  similaritySearch : nat -> string -> Z -> string -> outcome (list Document);
  saveQaFault : nat -> QaRow -> option string;
  rejectionMessage : string -> option string
}.

(** [err?.message || fallback] *)
Definition message_or (w : World) (e : exn) (fallback : string) : string :=
  let m := match e with
           | Error m => m
           | Rejection reason => default "" (rejectionMessage w reason)
           end in
  if truthy m then m else fallback.

(** Modelled from the spec: [database.js] is not among the sources.  The
    store keeps one Paper record per URL, an append-only QA log and the
    vector entries; [clock] counts the calls made to collaborators. *)
Record State : Type := mkState {
  clock : nat;
  papers : gmap string PaperRow;
  qaLog : list QaRow;
  vectors : list Document
}.

Definition tick (st : State) : State :=
  mkState (S (clock st)) (papers st) (qaLog st) (vectors st).

(** ** The monad of the asynchronous code *)

Definition M (A : Type) : Type := State -> list Event * State * (exn + A).

Definition ret {A} (a : A) : M A := fun st => ([], st, inr a).

Definition throw {A} (e : exn) : M A := fun st => ([], st, inl e).

Definition bind {A B} (m : M A) (k : A -> M B) : M B :=
  fun st =>
    match m st with
    | (tr, st1, inl e) => (tr, st1, inl e)
    | (tr, st1, inr a) =>
        let '(tr2, st2, r) := k a st1 in (tr ++ tr2, st2, r)
    end.

Declare Scope js_scope.
Delimit Scope js_scope with js.
Notation "x <- m ;; k" := (bind m (fun x => k))
  (at level 100, m at next level, right associativity) : js_scope.
Notation "m ;; k" := (bind m (fun _ => k))
  (at level 100, right associativity) : js_scope.
Local Open Scope js_scope.

(** [try { body } catch (err) { handler }] *)
Definition try_catch {A} (body : M A) (handler : exn -> M A) : M A :=
  fun st =>
    match body st with
    | (tr, st1, inl e) =>
        let '(tr2, st2, r) := handler e st1 in (tr ++ tr2, st2, r)
    | (tr, st1, inr a) => (tr, st1, inr a)
    end.

(** [await p.catch(() => undefined)] *)
Definition catch_ignore (m : M unit) : M unit :=
  try_catch m (fun _ => ret tt).

Definition emit (e : Event) : M unit := fun st => ([e], st, inr tt).

Definition enter (f : Fn) : M unit := emit (Enter f).

Definition console_error (label : string) (e : exn) : M unit :=
  emit (Console LError label e).

Definition console_warn (label : string) (e : exn) : M unit :=
  emit (Console LWarn label e).

Definition settle {A} (o : outcome A) : exn + A :=
  match o with
  | Resolved a => inr a
  | Rejected reason => inl (Rejection reason)
  end.

Definition report {A} (tag : A -> Answer) (r : exn + A) : Answer :=
  match r with
  | inl e => Failed e
  | inr a => tag a
  end.

(** The call [c] is made and awaited; [r] is how it ends. *)
Definition called {A} (c : Call) (tag : A -> Answer) (r : exn + A) : M A :=
  fun st => ([Called c (report tag r)], tick st, r).

(** A call answered by the world. *)
Definition await {A} (c : Call) (tag : A -> Answer)
           (answer : nat -> outcome A) : M A :=
  fun st => called c tag (settle (answer (clock st))) st.

(** A computation of a library that runs inside the process. *)
Definition lift {A} (r : exn + A) : M A := fun st => ([], st, r).

(** [await Promise.all(ps)], under one schedule of the promises: they
    settle in the order of the array, and all of them have settled when
    the result is delivered.  The array of results is returned when all of
    them succeed, and the first rejection is thrown otherwise.  Other
    schedules (a later promise settling first, promises still pending when
    the first rejection is delivered) are not modelled; statements that
    depend on the schedule say so. *)
Fixpoint promise_all {A} (ps : list (M A)) : M (list A) :=
  match ps with
  | [] => ret []
  | p :: rest =>
      fun st =>
        let '(tr1, st1, r1) := p st in
        let '(tr2, st2, r2) := promise_all rest st1 in
        (tr1 ++ tr2, st2,
         match r1, r2 with
         | inl e, _ => inl e
         | inr _, inl e => inl e
         | inr a, inr l => inr (a :: l)
         end)
  end.

(** ** The database and its vector store *)

Module SupabaseDatabase.
Section WithWorld.
Variable w : World.

Definition fault (o : option string) : exn + unit :=
  match o with
  | Some reason => inl (Rejection reason)
  | None => inr tt
  end.

Definition connect : M unit :=
  await FromExistingIndex (fun _ => Done) (fromExistingIndex w).

(** Modelled from the spec: existence lookup by URL. *)
Definition getPaper (url : string) : M (option PaperRow) :=
  fun st =>
    called (GetPaper url) Found
      (match fault (getPaperFault w (clock st) url) with
       | inl e => inl e
       | inr _ => inr (papers st !! url)
       end) st.

(** Modelled from the spec: the Paper record is keyed by its URL, the last
    write wins. *)
Definition addPaper (row : PaperRow) : M unit :=
  fun st =>
    match fault (addPaperFault w (clock st) row) with
    | inl e => called (AddPaper row) (fun _ => Done) (inl e) st
    | inr _ =>
        ([Called (AddPaper row) Done],
         mkState (S (clock st)) (<[row_url row := row]> (papers st))
                 (qaLog st) (vectors st),
         inr tt)
    end.

(** Modelled from the spec: one vector entry per segment. *)
Definition addDocuments (docs : list Document) : M unit :=
  fun st =>
    match fault (addDocumentsFault w (clock st) docs) with
    | inl e => called (AddDocuments docs) (fun _ => Done) (inl e) st
    | inr _ =>
        ([Called (AddDocuments docs) Done],
         mkState (S (clock st)) (papers st) (qaLog st) (vectors st ++ docs),
         inr tt)
    end.

Definition vectorSearch (query : string) (k : Z) (url : string)
  : M (list Document) :=
  await (SimilaritySearch query k url) Segments
        (fun t => similaritySearch w t query k url).

(** Modelled from the spec: the QA log is append-only. *)
Definition saveQa (question answer context : string)
           (followupQuestions : list string) : M unit :=
  let row := mkQaRow question answer context followupQuestions in
  fun st =>
    match fault (saveQaFault w (clock st) row) with
    | inl e => called (SaveQa row) (fun _ => Done) (inl e) st
    | inr _ =>
        ([Called (SaveQa row) Done],
         mkState (S (clock st)) (papers st) (qaLog st ++ [row]) (vectors st),
         inr tt)
    end.

End WithWorld.
End SupabaseDatabase.

(** ** The notes module ([notes/index.ts], second part of [server.ts]) *)

Module Notes.

(** The two regular expressions of [loadPdfFromUrl]. *)

Definition isAsciiLetter (c : ascii) : bool :=
  let n := code c in
  ((65 <=? n) && (n <=? 90)) || ((97 <=? n) && (n <=? 122)).

(** [/^[A-Za-z]:\\/.test(url)] *)
Definition drivePrefix (url : string) : bool :=
  match url with
  | String c (String ":" (String "\" _)) => isAsciiLetter c
  | _ => false
  end.

Definition toLower (c : ascii) : ascii :=
  let n := code c in
  if (65 <=? n) && (n <=? 90) then ascii_of_N (Z.to_N (n + 32)) else c.

Fixpoint lowerCase (s : string) : string :=
  match s with
  | EmptyString => EmptyString
  | String c r => String (toLower c) (lowerCase r)
  end.

(** [/^https?:\/\//i.test(url)] *)
Definition httpPrefix (url : string) : bool :=
  startsWith "http://" (lowerCase url) || startsWith "https://" (lowerCase url).

Definition looksLikeLocalPath (url : string) : bool :=
  drivePrefix url || startsWith "/" url || includes "\" url.

(** The request sent by [loadPdfFromUrl]. *)
Definition getRequest (url : string) : AxiosConfig :=
  mkAxios "GET" url "arraybuffer" 30000.

(** The [for] loop of [deletePagesFromPdf], with its counter. *)
Fixpoint removePages (pdfDoc : list Page) (numToOffsetBy : Z)
         (pagesToDelete : list number) : exn + list Page :=
  match pagesToDelete with
  | [] => inr pdfDoc
  | pageNumber :: rest =>
      match PDFDocument.removePage pdfDoc (sub pageNumber numToOffsetBy) with
      | inl e => inl e
      | inr pdfDoc' => removePages pdfDoc' (numToOffsetBy + 1) rest
      end
  end.

(** [deletePagesFromPdf], which runs inside the process. *)
Definition deletePages (pdf : Buffer) (pagesToDelete : list number)
  : exn + Buffer :=
  match PDFDocument.load pdf with
  | inl e => inl e
  | inr pdfDoc =>
      match removePages pdfDoc 1 pagesToDelete with
      | inl e => inl e
      | inr pdfDoc' => inr (PDFDocument.save pdfDoc')
      end
  end.

Definition deletePagesFromPdf (pdf : Buffer) (pagesToDelete : list number)
  : M Buffer :=
  enter (FnDeletePagesFromPdf pdf pagesToDelete) ;;
  lift (deletePages pdf pagesToDelete).

Section WithWorld.
Variable w : World.

Definition readFile (path : string) : M Buffer :=
  await (ReadFile path) Bytes (fun t => fsReadFile w t path).

Definition loadPdfFromUrl (url : string) : M Buffer :=
  enter (FnLoadPdfFromUrl url) ;;
  try_catch
    (if startsWith "file://" url then
       filePath <- lift (settle (fileURLToPath w url)) ;;
       readFile filePath
     else if looksLikeLocalPath url && negb (httpPrefix url) then
       readFile url
     else
       await (HttpRequest (getRequest url)) Bytes
             (fun t => axios w t (getRequest url)))
    (fun err =>
       console_error "Failed to load PDF:" err ;;
       throw (Error "download_pdf_failed")).

Definition generateNotes (documents : list Document)
  : M (list ArxivPaperNote) :=
  enter (FnGenerateNotes documents) ;;
  let documentsAsString := formatDocumentsAsString documents in
  await (NotesChain documentsAsString) NotesOut
        (fun t => notesChain w t documentsAsString).

(** [Math.random().toString(36).substring(7)] *)
Definition pickName : M string :=
  fun st => ([], st, inr (randomName w (clock st))).

Definition stage_file (pdfPath : string) (pdf : Buffer) : M unit :=
  await (WriteFile pdfPath pdf) (fun _ => Done)
        (fun t => writeFile w t pdfPath pdf).

Definition remove_file (pdfPath : string) : M unit :=
  await (Unlink pdfPath) (fun _ => Done) (fun t => unlink w t pdfPath).

(** [Promise.race([loader.load(), timer])] with the 60 s timer. *)
Definition raceUnstructured (pdfPath : string) : M (list Document) :=
  fun st =>
    called (UnstructuredLoad pdfPath "hi_res" 60000) Segments
      (match unstructuredLoad w (clock st) pdfPath with
       | Settled o => settle o
       | TimedOut => inl (Error "unstructured_timeout")
       end) st.

Definition loadLocally (pdfPath : string) : M (list Document) :=
  await (PdfLoaderLoad pdfPath) Segments (fun t => pdfLoaderLoad w t pdfPath).

Definition convertPdfToDocuments (pdf : Buffer) : M (list Document) :=
  enter (FnConvertPdfToDocuments pdf) ;;
  randomName <- pickName ;;
  let pdfPath := ("pdfs/" ++ randomName ++ ".pdf")%string in
  stage_file pdfPath pdf ;;
  (* Prefer Unstructured when available *)
  returned <-
    (if truthy_opt (UNSTRUCTURED_API_KEY w) then
       try_catch
         (docs <- raceUnstructured pdfPath ;;
          remove_file pdfPath ;;
          ret (Some docs))
         (fun err =>
            console_error "Unstructured parsing failed:" err ;;
            ret None)
     else ret None) ;;
  match returned with
  | Some docs => ret docs
  | None =>
      (* Fallback: local PDF parsing via PDFLoader *)
      try_catch
        (docs <- loadLocally pdfPath ;;
         remove_file pdfPath ;;
         ret docs)
        (fun err =>
           console_error "Local PDF parsing failed:" err ;;
           catch_ignore (remove_file pdfPath) ;;
           throw (Error "pdf_parse_failed"))
  end.

Definition withUrl (paperUrl : string) (doc : Document) : Document :=
  mkDocument (pageContent doc) (<["url" := paperUrl]> (metadata doc)).

(** [takeNotes]; the result is [None] where the code hands back the [null]
    notes of a stored row through its cast. *)
Definition takeNotes (paperUrl name : string)
           (pagesToDelete : option (list number))
  : M (option (list ArxivPaperNote)) :=
  if negb (truthy_opt (OPENAI_API_KEY w)) then
    throw (Error "Missing OPENAI_API_KEY")
  else
  SupabaseDatabase.connect w ;;
  existingPaper <- SupabaseDatabase.getPaper w paperUrl ;;
  match existingPaper with
  | Some existing => ret (row_notes existing)
  | None =>
      pdfAsBuffer <-
        try_catch (loadPdfFromUrl paperUrl)
          (fun err => throw err (* already wrapped *)) ;;
      pdfAsBuffer <-
        match pagesToDelete with
        | Some ((_ :: _) as pages) =>
            try_catch
              (deletePagesFromPdf pdfAsBuffer pages)
              (fun err =>
                 console_error "PDF page deletion failed:" err ;;
                 throw (Error "pdf_edit_failed"))
        | _ => ret pdfAsBuffer
        end ;;
      documents <-
        try_catch (convertPdfToDocuments pdfAsBuffer)
          (fun err => throw err (* already wrapped *)) ;;
      notes <-
        try_catch (generateNotes documents)
          (fun err =>
             console_error "OpenAI notes generation failed:" err ;;
             throw (Error "openai_failed")) ;;
      let newDocs := map (withUrl paperUrl) documents in
      (* Save paper first so user gets notes even if embeddings fail *)
      try_catch
        (SupabaseDatabase.addPaper w
           (mkPaper (Some (formatDocumentsAsString newDocs)) paperUrl
                    (Some notes) name))
        (fun err =>
           console_error "Supabase save failed:" err ;;
           throw (Error "database_failed")) ;;
      (* Best-effort vectorization *)
      try_catch
        (SupabaseDatabase.addDocuments w newDocs)
        (fun err =>
           console_warn "Vector indexing skipped due to error:" err) ;;
      ret (Some notes)
  end.

End WithWorld.
End Notes.

(** ** The QA module ([qa/index.ts], second part of [index.tsx]) *)

Module Qa.

(** Truthiness of an array: an array is an object, the empty one
    included. *)
Definition truthy_array {A} (_ : list A) : bool := true.

Definition fallbackDocument (fullText : string) : Document :=
  mkDocument fullText {["source" := "supabase-paper-fallback"]}.

Section WithWorld.
Variable w : World.

Definition qaModel (question : string) (documents : list Document)
           (notes : list ArxivPaperNote) : M (list QAResponse) :=
  enter (FnQaModel question documents notes) ;;
  if negb (truthy_array documents) then throw (Error "No documents found")
  else
    let documentsAsString := formatDocumentsAsString documents in
    let notesAsString := String.concat lf (map note notes) in
    await (QaChain documentsAsString notesAsString question) Answers
          (fun t => qaChain w t documentsAsString notesAsString question).

(** The segments handed to the model: the retrieved ones, or a synthetic
    one made of the stored paper when there is none and the paper has a
    full text. *)
Definition orFallback (documents : list Document) (paper : PaperRow)
  : list Document :=
  if negb (truthy_array documents) || (length documents =? 0)%nat then
    if truthy_opt (row_paper paper)
    then [fallbackDocument (default "" (row_paper paper))]
    else documents
  else documents.

Definition qaOnPaper (question paperUrl : string) : M (list QAResponse) :=
  SupabaseDatabase.connect w ;;
  documents <-
    try_catch
      (SupabaseDatabase.vectorSearch w question 8 paperUrl)
      (fun err =>
         console_warn "Similarity search failed, will fall back:" err ;;
         ret []) ;;
  paper <- SupabaseDatabase.getPaper w paperUrl ;;
  match paper with
  | None => throw (Error "No notes found")
  | Some paper =>
      match row_notes paper with
      | None => throw (Error "No notes found")
      | Some notes =>
          let documents := orFallback documents paper in
          answerAndQuestions <- qaModel question documents notes ;;
          promise_all
            (map (fun qa =>
                    SupabaseDatabase.saveQa w question (answer qa)
                      (formatDocumentsAsString documents)
                      (followupQuestions qa))
                 answerAndQuestions) ;;
          ret answerAndQuestions
      end
  end.

End WithWorld.
End Qa.

(** ** The HTTP entry point (first part of [server.ts]) *)

Module Routes.

Record TakeNotesBody : Type := mkTakeNotesBody {
  body_paperUrl : option string;
  body_name : option string;
  body_pagesToDelete : option string
}.

Record QaBody : Type := mkQaBody {
  qbody_paperUrl : option string;
  qbody_question : option string
}.

Inductive Response : Type :=
| SendNotes (status : Z) (notes : option (list ArxivPaperNote))
| SendAnswers (status : Z) (answers : list QAResponse)
| JsonError (status : Z) (error : string).

Section WithWorld.
Variable w : World.

Definition post_take_notes (body : TakeNotesBody) : M Response :=
  try_catch
    (match body_paperUrl body, body_name body with
     | Some paperUrl, Some name =>
         if truthy paperUrl && truthy name then
           let pagesToDeleteArray :=
             if truthy_opt (body_pagesToDelete body)
             then Some (Server.processPagesToDelete
                          (default "" (body_pagesToDelete body)))
             else None in
           notes <- Notes.takeNotes w paperUrl name
                      (Some (default [] pagesToDeleteArray)) ;;
           ret (SendNotes 200 notes)
         else ret (JsonError 400 "Missing required fields: paperUrl, name")
     | _, _ => ret (JsonError 400 "Missing required fields: paperUrl, name")
     end)
    (fun err =>
       console_error "/take_notes error:" err ;;
       ret (JsonError 500 (message_or w err "Internal Server Error"))).

Definition post_qa (body : QaBody) : M Response :=
  try_catch
    (match qbody_paperUrl body, qbody_question body with
     | Some paperUrl, Some question =>
         if truthy paperUrl && truthy question then
           qa <- Qa.qaOnPaper w question paperUrl ;;
           ret (SendAnswers 200 qa)
         else ret (JsonError 400 "Missing required fields: paperUrl, question")
     | _, _ => ret (JsonError 400 "Missing required fields: paperUrl, question")
     end)
    (fun err =>
       console_error "/qa error:" err ;;
       ret (JsonError 500 (message_or w err "Internal Server Error"))).

End WithWorld.
End Routes.

(** ** The page ([index.tsx], first part): the two submit handlers *)

Module Page.

(** The values of the two forms, as the resolver hands them over. *)
Record SubmitPaperForm : Type := mkForm {
  form_name : string;
  form_paperUrl : string;
  form_pagesToDelete : option string
}.

(** What a [catch] receives: an [Error] with its message, or any other
    value. *)
Inductive thrown : Type :=
| ErrorObject (message : string)
| OtherValue.

(** A value of a JSON body as [||] and [new Error(_)] see it: a string, or
    any other value ([null], a number, an array, an object) with its
    truthiness and the message of the [Error] built from it (the empty
    string for [[]]). *)
Inductive JsonValue : Type :=
| JsonString (s : string)
| JsonOther (isTruthy : bool) (text : string).

Definition jsonTruthy (v : JsonValue) : bool :=
  match v with
  | JsonString s => truthy s
  | JsonOther isTruthy _ => isTruthy
  end.

Definition jsonText (v : JsonValue) : string :=
  match v with
  | JsonString s => s
  | JsonOther _ text => text
  end.

(** How a [fetch] ends, as the handlers read it: rejected (network, abort
    by the 60 s timer), or answered; [errorField] is what
    [response.json().catch(() => null)] gives for [errJson?.error]
    ([None] when it is [undefined]: a body that cannot be parsed or has no
    such field), [data] is what [response.json()] gives when the body is
    taken as the result. *)
Inductive Fetched (A : Type) : Type :=
| FetchRejected (t : thrown)
| Responded (ok : bool) (status : Z) (errorField : option JsonValue)
            (data : thrown + A).
Arguments FetchRejected {A} t.
Arguments Responded {A} ok status errorField data.

(** The JSON sent with a request. *)
Inductive Payload : Type :=
| TakeNotesPayload (values : SubmitPaperForm)
| QaPayload (question paperUrl : string).

Inductive PageEvent : Type :=
| Post (path : string) (payload : Payload)
| ConsoleError (t : thrown)
| Alert (text : string).

(** The state of [HomePage]. *)
Record PageState : Type := mkPage {
  submittedPaperData : option SubmitPaperForm;
  notes : option (list ArxivPaperNote);
  answers : option (list QAResponse);
  notesLoading : bool;
  qaLoading : bool;
  notesError : option string;
  qaError : option string
}.

Definition initial : PageState :=
  mkPage None None None false false None None.

Definition setSubmittedPaperData (v : option SubmitPaperForm)
           (s : PageState) : PageState :=
  mkPage v (notes s) (answers s) (notesLoading s) (qaLoading s)
         (notesError s) (qaError s).

Definition setNotes (v : option (list ArxivPaperNote)) (s : PageState)
  : PageState :=
  mkPage (submittedPaperData s) v (answers s) (notesLoading s) (qaLoading s)
         (notesError s) (qaError s).

Definition setAnswers (v : option (list QAResponse)) (s : PageState)
  : PageState :=
  mkPage (submittedPaperData s) (notes s) v (notesLoading s) (qaLoading s)
         (notesError s) (qaError s).

Definition setNotesLoading (v : bool) (s : PageState) : PageState :=
  mkPage (submittedPaperData s) (notes s) (answers s) v (qaLoading s)
         (notesError s) (qaError s).

Definition setQaLoading (v : bool) (s : PageState) : PageState :=
  mkPage (submittedPaperData s) (notes s) (answers s) (notesLoading s) v
         (notesError s) (qaError s).

Definition setNotesError (v : option string) (s : PageState) : PageState :=
  mkPage (submittedPaperData s) (notes s) (answers s) (notesLoading s)
         (qaLoading s) v (qaError s).

Definition setQaError (v : option string) (s : PageState) : PageState :=
  mkPage (submittedPaperData s) (notes s) (answers s) (notesLoading s)
         (qaLoading s) (notesError s) v.

(** [errJson?.error || `Server error: ${response.status}`] *)
Definition errorMessage (errorField : option JsonValue) (status : Z)
  : string :=
  match errorField with
  | Some msg =>
      if jsonTruthy msg then jsonText msg
      else ("Server error: " ++ pretty status)%string
  | None => ("Server error: " ++ pretty status)%string
  end.

(** The body of the [try] once the [fetch] has settled: the value it ends
    with, or what it throws. *)
Definition received {A} (net : Fetched A) : thrown + A :=
  match net with
  | FetchRejected t => inl t
  | Responded ok status errorField data =>
      if negb ok then inl (ErrorObject (errorMessage errorField status))
      else data
  end.

(** [err instanceof Error ? err.message : fallback] *)
Definition messageOf (t : thrown) (fallback : string) : string :=
  match t with
  | ErrorObject message => message
  | OtherValue => fallback
  end.

(** [onPaperSubmit], given how its [fetch] ends. *)
Definition onPaperSubmit (net : Fetched (list ArxivPaperNote))
           (values : SubmitPaperForm) (s : PageState)
  : list PageEvent * PageState :=
  let s :=
    setSubmittedPaperData
      (Some (mkForm (form_name values) (form_paperUrl values)
                    (if truthy_opt (form_pagesToDelete values)
                     then form_pagesToDelete values else None))) s in
  let s := setNotes None s in
  let s := setAnswers None s in
  let s := setNotesError None s in
  let s := setQaError None s in
  let s := setNotesLoading true s in
  let request := Post "/api/take_notes" (TakeNotesPayload values) in
  let '(events, s) :=
    match received net with
    | inr data => ([request], setNotes (Some data) s)
    | inl err =>
        ([request; ConsoleError err],
         setNotesError (Some (messageOf err "Failed to take notes")) s)
    end in
  (events, setNotesLoading false s).

(** [onQuestionSubmit], given how its [fetch] ends. *)
Definition onQuestionSubmit (net : Fetched (list QAResponse))
           (question : string) (s : PageState)
  : list PageEvent * PageState :=
  match submittedPaperData s with
  | None => ([Alert "Please submit a paper first"], s)
  | Some submitted =>
      let data := QaPayload question (form_paperUrl submitted) in
      let s := setQaError None s in
      let s := setQaLoading true s in
      let request := Post "/api/qa" data in
      let '(events, s) :=
        match received net with
        | inr result => ([request], setAnswers (Some result) s)
        | inl err =>
            ([request; ConsoleError err],
             setQaError (Some (messageOf err "Failed to run QA")) s)
        end in
      (events, setQaLoading false s)
  end.

(** The requests among the events. *)
Definition posts (events : list PageEvent) : list (string * Payload) :=
  omap (fun e => match e with
                 | Post path payload => Some (path, payload)
                 | _ => None
                 end) events.

(** [disabled={notesLoading}] and [disabled={qaLoading || !notes}]: an
    array of notes, even empty, is truthy. *)
Definition submitDisabled (s : PageState) : bool := notesLoading s.

Definition askDisabled (s : PageState) : bool :=
  qaLoading s || match notes s with None => true | Some _ => false end.

End Page.

(** ** Scenarios *)

Module Scenario.

Definition tenPages : Buffer :=
  PdfBytes ["p1"; "p2"; "p3"; "p4"; "p5"; "p6"; "p7"; "p8"; "p9"; "p10"].

Definition seg1 : Document := mkDocument "Introduction" {["source" := "pdf"]}.
Definition seg2 : Document := mkDocument "Results" {["source" := "pdf"]}.
Definition note1 : ArxivPaperNote := mkNote "A contribution" [1].
Definition qa1 : QAResponse := mkQA "An answer" ["What next?"].

(** A world in which every call is answered the same way at any time.
    [tier1] is [None] when the Unstructured key is absent, and otherwise
    tells how the race of the service against its timer ends.  Every
    rejection is an [Error] whose message is the reason. *)
Definition scene (key : option string)
           (tier1 : option (Race (list Document)))
           (rm : outcome unit)
           (gen : outcome (list ArxivPaperNote))
           (search : outcome (list Document))
           (indexFault saveFault : option string) : World := {|
  OPENAI_API_KEY := key;
  UNSTRUCTURED_API_KEY :=
    match tier1 with Some _ => Some "un-test" | None => None end;
  randomName := fun _ => "k3x9";
  fileURLToPath := fun u => Resolved (String.substring 7 (String.length u) u);
  fsReadFile := fun _ _ => Resolved tenPages;
  writeFile := fun _ _ _ => Resolved tt;
  unlink := fun _ _ => rm;
  axios := fun _ _ => Resolved tenPages;
  unstructuredLoad := fun _ _ => default TimedOut tier1;
  pdfLoaderLoad := fun _ _ => Resolved [seg1; seg2];
  notesChain := fun _ _ => gen;
  qaChain := fun _ _ _ _ => Resolved [qa1];
  fromExistingIndex := fun _ => Resolved tt;
  getPaperFault := fun _ _ => None;
  addPaperFault := fun _ _ => None;
  addDocumentsFault := fun _ _ => indexFault;
  similaritySearch := fun _ _ _ _ => search;
  saveQaFault := fun _ _ => saveFault;
  rejectionMessage := fun reason => Some reason
|}.

(** Every collaborator answers; the Unstructured key is absent. *)
Definition calm : World :=
  scene (Some "sk-test") None (Resolved tt) (Resolved [note1])
        (Resolved [seg2]) None None.

(** No OpenAI key. *)
Definition keyless : World :=
  scene None None (Resolved tt) (Resolved [note1]) (Resolved [seg2]) None None.

(** The staging file cannot be removed. *)
Definition sticky : World :=
  scene (Some "sk-test") None (Rejected "EPERM") (Resolved [note1])
        (Resolved [seg2]) None None.

(** The Unstructured service does not answer in time. *)
Definition slow : World :=
  scene (Some "sk-test") (Some TimedOut) (Resolved tt) (Resolved [note1])
        (Resolved [seg2]) None None.

(** The model returns no note. *)
Definition mute : World :=
  scene (Some "sk-test") None (Resolved tt) (Resolved [])
        (Resolved [seg2]) None None.

(** The embedding quota is exceeded. *)
Definition overQuota : World :=
  scene (Some "sk-test") None (Resolved tt) (Resolved [note1])
        (Resolved [seg2]) (Some "insufficient_quota") None.

(** The vector store is unreachable, or has nothing for the paper. *)
Definition blind : World :=
  scene (Some "sk-test") None (Resolved tt) (Resolved [note1])
        (Rejected "vector store unreachable") None None.

Definition vacant : World :=
  scene (Some "sk-test") None (Resolved tt) (Resolved [note1])
        (Resolved []) None None.

(** The QA log cannot be written. *)
Definition readOnlyLog : World :=
  scene (Some "sk-test") None (Resolved tt) (Resolved [note1])
        (Resolved [seg2]) None (Some "insert failed").

Definition emptyStore : State := mkState 0 ∅ [] [].

Definition storedPaper : PaperRow :=
  mkPaper (Some "Introduction") "u" (Some [note1]) "P".

Definition storeWithPaper : State := mkState 0 {["u" := storedPaper]} [] [].

(** A stored paper whose full text is empty. *)
Definition textlessPaper : PaperRow := mkPaper (Some "") "u" (Some [note1]) "P".

Definition storeWithTextless : State :=
  mkState 0 {["u" := textlessPaper]} [] [].

End Scenario.

(** ** Vocabulary of the statements *)

Import Notes Qa Scenario.

(** A token that parses as a positive integer, with its value. *)
Definition positiveInteger (tok : string) : option number :=
  match parseInt (trim tok) with
  | Num z => if 0 <? z then Some (Num z) else None
  | NaN => None
  end.

(** The pages of [doc], numbered from [first] on, whose number is not in
    [deleted]: what is left of a document once the pages [deleted] of its
    original numbering are gone. *)
Fixpoint keepPages (doc : list Page) (first : Z) (deleted : list Z)
  : list Page :=
  match doc with
  | [] => []
  | pg :: rest =>
      if existsb (Z.eqb first) deleted
      then keepPages rest (first + 1) deleted
      else pg :: keepPages rest (first + 1) deleted
  end.

(** Every event of the trace belongs to one of the stages [allowed]. *)
Definition only (allowed : list Stage) (tr : list Event) : Prop :=
  forall e, In e tr -> In (stage e) allowed.

(** The store is the same in both states (the clock may differ). *)
Definition same_store (st st' : State) : Prop :=
  papers st' = papers st /\ qaLog st' = qaLog st /\ vectors st' = vectors st.

(** The HTTP requests and the file reads of a trace, in order. *)
Fixpoint httpRequests (tr : list Event) : list AxiosConfig :=
  match tr with
  | [] => []
  | Called (HttpRequest config) _ :: rest => config :: httpRequests rest
  | _ :: rest => httpRequests rest
  end.

Fixpoint fileReads (tr : list Event) : list string :=
  match tr with
  | [] => []
  | Called (ReadFile path) _ :: rest => path :: fileReads rest
  | _ :: rest => fileReads rest
  end.

(** The calls of a trace that failed. *)
Fixpoint failures (tr : list Event) : list Call :=
  match tr with
  | [] => []
  | Called c (Failed _) :: rest => c :: failures rest
  | _ :: rest => failures rest
  end.

(** The QA records that a trace attempts to save, in order. *)
Fixpoint saveAttempts (tr : list Event) : list QaRow :=
  match tr with
  | [] => []
  | Called (SaveQa row) _ :: rest => row :: saveAttempts rest
  | _ :: rest => saveAttempts rest
  end.

(** The record of one answer. *)
Definition recordOf (question context : string) (qa : QAResponse) : QaRow :=
  mkQaRow question (answer qa) context (followupQuestions qa).

(** ** Vocabulary of the further statements *)

(** The messages of the errors that [takeNotes] builds itself. *)
Definition ingestionErrors : list string :=
  ["Missing OPENAI_API_KEY"; "download_pdf_failed"; "pdf_edit_failed";
   "pdf_parse_failed"; "openai_failed"; "database_failed"].

(** The place of a stage in the ingestion pipeline; logging and the QA
    stages have none. *)
Definition rank (s : Stage) : option nat :=
  match s with
  | Database => Some 0%nat
  | Fetch => Some 1%nat
  | Edit => Some 2%nat
  | Extract => Some 3%nat
  | Generate => Some 4%nat
  | Save => Some 5%nat
  | Index => Some 6%nat
  | Search | Answering | Record | Log => None
  end.

(** The events of the trace come in the order of the pipeline, from the
    place [from] on. *)
Fixpoint inOrder (from : nat) (tr : list Event) : Prop :=
  match tr with
  | [] => True
  | e :: rest =>
      match rank (stage e) with
      | None => inOrder from rest
      | Some k => (from <= k)%nat /\ inOrder k rest
      end
  end.

(** The QA records whose save succeeded, in order. *)
Fixpoint savedRows (tr : list Event) : list QaRow :=
  match tr with
  | [] => []
  | Called (SaveQa row) Done :: rest => row :: savedRows rest
  | _ :: rest => savedRows rest
  end.

(** The number of occurrences of a character in a string. *)
Fixpoint countChar (c : ascii) (s : string) : nat :=
  match s with
  | EmptyString => 0
  | String a r => (if Ascii.eqb a c then 1 else 0) + countChar c r
  end.

(** The filter of the page's copy of the parser. *)
Definition keptByPage (n : number) : bool := negb (isNaN n) && gt n 0.

(** The steps of [parseInt] after the leading white space: the sign, the
    radix prefix, the digits. *)
Definition signPart (s : string) : Z * string :=
  match s with
  | String "-" r => (-1, r)
  | String "+" r => (1, r)
  | _ => (1, s)
  end.

Definition radixPart (s : string) : Z * string :=
  match s with
  | String "0" (String "x" r) => (16, r)
  | String "0" (String "X" r) => (16, r)
  | _ => (10, s)
  end.

Definition digitsPart (sign : Z) (s : string) : number :=
  let '(R, s) := radixPart s in
  match digitsPrefix R s with
  | [] => NaN
  | ds => Num (sign * digitsValue R ds)
  end.

Definition parseCore (s : string) : number :=
  let '(sign, s) := signPart s in digitsPart sign s.

(** A string made of white space only. *)
Fixpoint allWhiteSpace (s : string) : bool :=
  match s with
  | EmptyString => true
  | String c r => isWhiteSpace c && allWhiteSpace r
  end.

(** ** Symbolic execution of the monadic code *)

(** Unfolds the monad and the database; the helpers stay folded. *)
Ltac run_in H :=
  cbv beta iota zeta delta
    [SupabaseDatabase.connect SupabaseDatabase.getPaper
     SupabaseDatabase.addPaper SupabaseDatabase.addDocuments
     SupabaseDatabase.vectorSearch
     SupabaseDatabase.fault
     readFile stage_file remove_file raceUnstructured loadLocally pickName
     generateNotes deletePagesFromPdf qaModel
     bind ret throw try_catch catch_ignore emit enter console_error
     console_warn await called settle report lift tick
     truthy_array negb orb andb] in H;
  cbn [app clock papers qaLog vectors] in H.

(** The scrutinee on which the evaluation of [t] is blocked. *)
Ltac stuck t :=
  lazymatch t with
  | match ?x with _ => _ end => stuck x
  | (match ?x with _ => _ end) _ => stuck x
  | _ => t
  end.

Ltac split_in H :=
  run_in H;
  repeat (
    lazymatch type of H with
    | ?lhs = _ =>
        lazymatch lhs with
        | context [match _ with _ => _ end] =>
            let y := stuck lhs in destruct y eqn:?; run_in H
        end
    end).

(** Splits the equation of a finished run into its three components. *)
Ltac unrun H :=
  apply pair_equal_spec in H as [H ?];
  apply pair_equal_spec in H as [? ?]; subst.

(** Case analysis of a membership in a trace. *)
Ltac in_trace :=
  repeat match goal with
    | H : In _ (_ ++ _) |- _ => apply in_app_or in H; destruct H as [H|H]
    | H : In _ (_ :: _) |- _ => destruct H as [H|H]; [try discriminate H|]
    | H : In _ [] |- _ => destruct H
    end.

(** * Properties *)

(** ** The request parser *)

Lemma filter_map_omap (toks : list string) :
  List.filter (fun n => negb (isNaN n) && gt n 0)
    (map (fun num => parseInt (trim num)) toks)
  = omap positiveInteger toks.
Proof.
  induction toks as [|tok toks IH]; [reflexivity|].
  cbn [map omap list_omap List.filter]. unfold positiveInteger at 1.
  rewrite IH.
  destruct (parseInt (trim tok)) as [|z]; cbn; [reflexivity|].
  destruct (0 <? z); reflexivity.
Qed.

(** The page copy of the parser keeps exactly the tokens that parse as
    positive integers, in order. *)
Lemma web_processPagesToDelete_exact (s : string) :
  Web.processPagesToDelete s = omap positiveInteger (split "," s).
Proof.
  unfold Web.processPagesToDelete.
  destruct s as [|c s]; [reflexivity|].
  cbn [truthy negb]. apply filter_map_omap.
Qed.

Lemma web_processPagesToDelete_positive (s : string) (n : number) :
  In n (Web.processPagesToDelete s) -> exists z, n = Num z /\ 0 < z.
Proof.
  rewrite web_processPagesToDelete_exact. intros H.
  apply list_elem_of_In, list_elem_of_omap in H.
  destruct H as (tok & _ & H). unfold positiveInteger in H.
  destruct (parseInt (trim tok)) as [|z]; [discriminate|].
  destruct (0 <? z) eqn:E; [|discriminate].
  injection H as <-. exists z. split; [reflexivity|lia].
Qed.

(** The server copy keeps one entry per token, whatever the token. *)
Lemma server_processPagesToDelete_length (s : string) :
  length (Server.processPagesToDelete s) = length (split "," s).
Proof. unfold Server.processPagesToDelete. apply length_map. Qed.

(** C1.  The parser that receives the request string, the one of the
    server, drops nothing: on "1, x, -2, 4" it yields [1, NaN, -2, 4], where
    the copy of the page yields [1, 4]. *)
Theorem C1_server_parser_keeps_invalid_tokens :
  Server.processPagesToDelete "1, x, -2, 4" = [Num 1; NaN; Num (-2); Num 4]
  /\ Web.processPagesToDelete "1, x, -2, 4" = [Num 1; Num 4].
Proof. split; reflexivity. Qed.

(** Through the route, the unfiltered entries reach the page deletion:
    the request with "1, x, -2, 4" ends in a 500 "pdf_edit_failed". *)
Lemma take_notes_route_fails_on_invalid_tokens :
  let body := Routes.mkTakeNotesBody (Some "https://arxiv.org/a.pdf")
                                     (Some "P") (Some "1, x, -2, 4") in
  let '(tr, _, r) := Routes.post_take_notes calm body emptyStore in
  r = inr (Routes.JsonError 500 "pdf_edit_failed")
  /\ In (Enter (FnDeletePagesFromPdf tenPages [Num 1; NaN; Num (-2); Num 4]))
        tr.
Proof. vm_compute. split; [reflexivity|tauto]. Qed.

(** ** Page deletion *)

Lemma removePages_app (pre post : list number) :
  forall (doc : list Page) (k : Z),
    removePages doc k (pre ++ post) =
    match removePages doc k pre with
    | inl e => inl e
    | inr cur => removePages cur (k + Z.of_nat (length pre)) post
    end.
Proof.
  induction pre as [|p pre IH]; intros doc k; cbn [app removePages length].
  - f_equal. lia.
  - destruct (PDFDocument.removePage doc (sub p k)) as [e|doc']; [reflexivity|].
    rewrite IH. destruct (removePages doc' (k + 1) pre); [reflexivity|].
    f_equal. lia.
Qed.

Lemma keepPages_nil (doc : list Page) :
  forall first : Z, keepPages doc first [] = doc.
Proof.
  induction doc as [|pg doc IH]; intros first; [reflexivity|].
  cbn. f_equal. apply IH.
Qed.

Lemma keepPages_skip (doc : list Page) :
  forall (first p : Z) (ps : list Z),
    p < first -> keepPages doc first (p :: ps) = keepPages doc first ps.
Proof.
  induction doc as [|pg doc IH]; intros first p ps Hp; [reflexivity|].
  cbn [keepPages existsb].
  replace (first =? p) with false by (symmetry; apply Z.eqb_neq; lia).
  cbn [orb]. rewrite !(IH (first + 1) p ps) by lia. reflexivity.
Qed.

Lemma existsb_eqb_above (x : Z) (ps : list Z) :
  Forall (fun p => x < p) ps -> existsb (Z.eqb x) ps = false.
Proof.
  induction 1 as [|p ps Hp _ IH]; [reflexivity|].
  cbn. rewrite IH. replace (x =? p) with false; [reflexivity|].
  symmetry. apply Z.eqb_neq. lia.
Qed.

Lemma keepPages_delete (doc : list Page) :
  forall (off p : Z) (ps : list Z),
    off <= p -> Forall (fun p' => p < p') ps ->
    keepPages (delete (Z.to_nat (p - off)) doc) (off + 1) ps
    = keepPages doc off (p :: ps).
Proof.
  induction doc as [|pg doc IH]; intros off p ps Hle Hps.
  - destruct (Z.to_nat (p - off)); reflexivity.
  - destruct (Z.eq_dec p off) as [->|Hne].
    + rewrite Z.sub_diag. cbn [Z.to_nat delete list_delete keepPages existsb].
      rewrite Z.eqb_refl. cbn [orb].
      symmetry. apply keepPages_skip. lia.
    + replace (Z.to_nat (p - off)) with (S (Z.to_nat (p - (off + 1)))) by lia.
      cbn [delete list_delete keepPages existsb].
      replace (off =? p) with false by (symmetry; apply Z.eqb_neq; lia).
      cbn [orb].
      rewrite !existsb_eqb_above.
      * f_equal. apply IH; [lia|assumption].
      * eapply Forall_impl; [exact Hps|]. cbn. intros; lia.
      * eapply Forall_impl; [exact Hps|]. cbn. intros; lia.
Qed.

Lemma removePages_ascending_from (ps : list Z) :
  forall (cur : list Page) (off : Z),
    StronglySorted Z.lt ps ->
    Forall (fun p => off <= p < off + Z.of_nat (length cur)) ps ->
    removePages cur off (map Num ps) = inr (keepPages cur off ps).
Proof.
  induction ps as [|p ps IH]; intros cur off Hsort Hrange.
  - cbn. f_equal. symmetry. apply keepPages_nil.
  - apply StronglySorted_inv in Hsort as [Hsort Hlt].
    apply Forall_cons in Hrange as [Hp Hrange].
    cbn [map removePages sub PDFDocument.removePage].
    replace ((0 <=? p - off) && (p - off <? Z.of_nat (length cur))) with true
      by (symmetry; apply andb_true_iff; split;
          [apply Z.leb_le|apply Z.ltb_lt]; lia).
    rewrite IH.
    + f_equal. apply keepPages_delete; [lia|assumption].
    + assumption.
    + rewrite length_delete by (apply lookup_lt_is_Some_2; lia).
      apply Forall_forall. intros p' Hin.
      rewrite Forall_forall in Hrange, Hlt.
      specialize (Hrange p' Hin). specialize (Hlt p' Hin). lia.
Qed.

(** For page numbers given in ascending order and within the document,
    [deletePagesFromPdf] removes exactly the pages that bear these numbers
    in the original document, and saves what is left. *)
Lemma deletePages_ascending (pages : list Page) (ps : list Z) :
  StronglySorted Z.lt ps ->
  Forall (fun p => 1 <= p <= Z.of_nat (length pages)) ps ->
  deletePages (PdfBytes pages) (map Num ps)
  = inr (PDFDocument.save (keepPages pages 1 ps)).
Proof.
  intros Hsort Hrange. unfold deletePages. cbn [PDFDocument.load].
  rewrite removePages_ascending_from; [reflexivity|assumption|].
  eapply Forall_impl; [exact Hrange|]. cbn. intros; lia.
Qed.

(** C3, as amended.  The deletions are made in the order given and the i-th
    one (i = length pre + 1) removes the page at the 0-based index
    (requestedPageNumber - i) of the document left by the deletions before
    it; requesting [3, 5] deletes the original page 3 and then the original
    page 5. *)
Theorem C3_deletions_in_order_with_offset :
  (forall (pre : list number) (p : number) (post : list number)
          (doc : list Page),
      removePages doc 1 (pre ++ p :: post) =
      match removePages doc 1 pre with
      | inl e => inl e
      | inr cur =>
          match PDFDocument.removePage cur
                  (sub p (Z.of_nat (length pre) + 1)) with
          | inl e => inl e
          | inr cur' => removePages cur' (Z.of_nat (length pre) + 2) post
          end
      end)
  /\ (forall (p1 p2 p3 p4 p5 : Page) (rest : list Page),
         deletePages (PdfBytes (p1 :: p2 :: p3 :: p4 :: p5 :: rest))
                     [Num 3; Num 5]
         = inr (PdfBytes (p1 :: p2 :: p4 :: rest))).
Proof.
  split.
  - intros pre p post doc. rewrite removePages_app.
    destruct (removePages doc 1 pre) as [e|cur]; [reflexivity|].
    cbn [removePages]. rewrite (Z.add_comm 1).
    destruct (PDFDocument.removePage cur _); [reflexivity|].
    f_equal. lia.
  - intros p1 p2 p3 p4 p5 rest.
    change [Num 3; Num 5] with (map Num [3; 5]).
    rewrite deletePages_ascending.
    + cbn [keepPages existsb Z.eqb Z.add Pos.add Pos.succ Pos.eqb orb].
      rewrite !keepPages_skip by lia. rewrite keepPages_nil. reflexivity.
    + repeat constructor; lia.
    + repeat constructor; cbn [length]; lia.
Qed.

(** C3, as stated, fails: on a ten-page document the request [3, 5] leaves
    the original page 6 in place and removes the original page 5. *)
Lemma C3_counterexample :
  deletePages tenPages [Num 3; Num 5]
  = inr (PdfBytes ["p1"; "p2"; "p4"; "p6"; "p7"; "p8"; "p9"; "p10"])
  /\ deletePages tenPages [Num 3; Num 5]
     <> inr (PdfBytes ["p1"; "p2"; "p4"; "p5"; "p7"; "p8"; "p9"; "p10"]).
Proof. split; [reflexivity|discriminate]. Qed.

(** ** Fetching *)

Lemma only_nil (allowed : list Stage) : only allowed [].
Proof. intros e []. Qed.

Lemma only_cons (allowed : list Stage) (e : Event) (tr : list Event) :
  In (stage e) allowed -> only allowed tr -> only allowed (e :: tr).
Proof. intros He Htr x [<-|Hx]; [exact He|exact (Htr x Hx)]. Qed.

Create HintDb trace.
#[local] Hint Resolve only_nil only_cons : trace.
#[local] Hint Extern 1 (In _ (_ :: _)) => (cbn; tauto) : trace.

Lemma loadPdfFromUrl_run (w : World) (url : string) (st st' : State)
      (tr : list Event) (r : exn + Buffer) :
  loadPdfFromUrl w url st = (tr, st', r) ->
  only [Fetch; Log] tr /\ same_store st st' /\
  (forall e, r = inl e -> e = Error "download_pdf_failed").
Proof.
  intros H. unfold loadPdfFromUrl in H. split_in H.
  all: injection H as <- <- <-.
  all: split; [auto 6 with trace|].
  all: split; [repeat split|].
  all: intros e [=]; congruence.
Qed.

(** C9, as amended.  [loadPdfFromUrl] reads from the file system when the
    URL starts with "file://", or when it looks like a local path (a drive
    letter followed by ":\", a leading "/", or a backslash anywhere) and
    does not match http(s):// whatever the case; otherwise it issues one GET
    request with a timeout of 30000 ms and no second attempt.  Every failure
    ends in the error "download_pdf_failed". *)
Theorem C9_fetch_dispatch (w : World) (url : string) (st st' : State)
        (tr : list Event) (r : exn + Buffer) :
  loadPdfFromUrl w url st = (tr, st', r) ->
  (if startsWith "file://" url then
     httpRequests tr = [] /\
     fileReads tr = match fileURLToPath w url with
                    | Resolved filePath => [filePath]
                    | Rejected _ => []
                    end
   else if (drivePrefix url || startsWith "/" url || includes "\" url)
           && negb (httpPrefix url) then
     httpRequests tr = [] /\ fileReads tr = [url]
   else
     httpRequests tr = [mkAxios "GET" url "arraybuffer" 30000] /\
     fileReads tr = [])
  /\ (failures tr <> [] -> r = inl (Error "download_pdf_failed"))
  /\ ((exists reason, startsWith "file://" url = true /\
                      fileURLToPath w url = Rejected reason) ->
      r = inl (Error "download_pdf_failed"))
  /\ (forall e, r = inl e -> e = Error "download_pdf_failed").
Proof.
  intros H. unfold loadPdfFromUrl in H.
  fold (looksLikeLocalPath url).
  split_in H; injection H as <- <- <-.
  all: repeat match goal with
         | E : _ = _ |- _ => rewrite E
         end.
  all: cbn [httpRequests fileReads failures negb andb].
  all: repeat split; try reflexivity; try congruence.
  all: try (intros (reason & ? & ?); congruence).
  all: try (intros e [=]; congruence).
Qed.

Lemma C9_fetch_dispatch_witness :
  exists tr st' r,
    loadPdfFromUrl calm "https://arxiv.org/a.pdf" emptyStore = (tr, st', r)
    /\ httpRequests tr = [mkAxios "GET" "https://arxiv.org/a.pdf" "arraybuffer" 30000]
    /\ fileReads tr = [].
Proof.
  eexists _, _, _. split; [vm_compute; reflexivity|].
  exact (proj1 (C9_fetch_dispatch calm "https://arxiv.org/a.pdf" emptyStore
                  _ _ _ eq_refl)).
Defined.

(** C9, as stated, fails: "docs\a.pdf" has no file scheme and is not an
    absolute path, and yet it is read from the file system, without any
    HTTP request. *)
Lemma C9_counterexample :
  startsWith "file://" "docs\a.pdf" = false
  /\ drivePrefix "docs\a.pdf" = false
  /\ startsWith "/" "docs\a.pdf" = false
  /\ (let '(tr, _, _) := loadPdfFromUrl calm "docs\a.pdf" emptyStore in
      httpRequests tr = [] /\ fileReads tr = ["docs\a.pdf"]).
Proof. repeat split; reflexivity. Qed.

(** ** Extraction *)

Lemma convertPdfToDocuments_run (w : World) (pdf : Buffer) (st st' : State)
      (tr : list Event) (r : exn + list Document) :
  convertPdfToDocuments w pdf st = (tr, st', r) ->
  only [Extract; Log] tr /\ same_store st st' /\
  (forall e, r = inl e ->
             e = Error "pdf_parse_failed" \/ exists reason, e = Rejection reason).
Proof.
  intros H. unfold convertPdfToDocuments in H. split_in H.
  all: injection H as <- <- <-.
  all: split; [auto 12 with trace|].
  all: split; [repeat split|].
  all: intros e [=]; subst; eauto.
Qed.

(** C8, as amended.  When the staging file is written and removed without
    error, extraction either returns the segments of the high-fidelity
    tier, or -- that tier being unconfigured, or having failed or timed
    out -- calls the local parser, returns its segments when it succeeds
    and throws "pdf_parse_failed" only when it fails too. *)
Theorem C8_extraction_falls_back (w : World) (pdf : Buffer) (st st' : State)
        (tr : list Event) (r : exn + list Document) :
  (forall t p b, writeFile w t p b = Resolved tt) ->
  (forall t p, unlink w t p = Resolved tt) ->
  convertPdfToDocuments w pdf st = (tr, st', r) ->
  (exists p docs,
      truthy_opt (UNSTRUCTURED_API_KEY w) = true /\
      In (Called (UnstructuredLoad p "hi_res" 60000) (Segments docs)) tr /\
      r = inr docs)
  \/
  (exists p,
      (truthy_opt (UNSTRUCTURED_API_KEY w) = false \/
       exists e, In (Called (UnstructuredLoad p "hi_res" 60000) (Failed e)) tr)
      /\
      ((exists docs, In (Called (PdfLoaderLoad p) (Segments docs)) tr /\
                     r = inr docs)
       \/
       (exists e, In (Called (PdfLoaderLoad p) (Failed e)) tr /\
                  r = inl (Error "pdf_parse_failed")))).
Proof.
  intros Hw Hu H. unfold convertPdfToDocuments in H. split_in H.
  all: injection H as <- <- <-.
  all: repeat match goal with
         | E : writeFile _ _ _ _ = _ |- _ => rewrite Hw in E
         | E : unlink _ _ _ = _ |- _ => rewrite Hu in E
         end; try discriminate.
  all: first
         [ solve [ left; do 2 eexists; split; [reflexivity|];
                   split; [cbn; eauto 8|reflexivity] ]
         | right; eexists; split;
           [ first [ left; reflexivity
                   | solve [right; eexists; cbn; eauto 8] ]
           | first [ solve [left; eexists; split; [cbn; eauto 12|reflexivity]]
                   | solve [right; eexists; split;
                            [cbn; eauto 12|reflexivity]] ] ] ].
Qed.

Lemma C8_extraction_falls_back_witness :
  exists tr st',
    convertPdfToDocuments slow tenPages emptyStore
    = (tr, st', inr [seg1; seg2])
    /\ In (Called (UnstructuredLoad "pdfs/k3x9.pdf" "hi_res" 60000)
                  (Failed (Error "unstructured_timeout"))) tr
    /\ In (Called (PdfLoaderLoad "pdfs/k3x9.pdf") (Segments [seg1; seg2])) tr.
Proof.
  eexists _, _. split; [vm_compute; reflexivity|].
  destruct (C8_extraction_falls_back slow tenPages emptyStore _ _ _
              (fun _ _ _ => eq_refl) (fun _ _ => eq_refl) eq_refl)
    as [(p & docs & _ & Hin & _)|(p & _ & Hlocal)].
  - exfalso. repeat (destruct Hin as [Hin|Hin]; [discriminate Hin|]).
    exact Hin.
  - split; cbn; tauto.
Defined.

(** C8, as stated, fails: the high-fidelity tier is unconfigured and the
    local parser returns its segments, but the staging file cannot be
    removed, and extraction throws "pdf_parse_failed". *)
Lemma C8_counterexample :
  UNSTRUCTURED_API_KEY sticky = None
  /\ let '(tr, _, r) := convertPdfToDocuments sticky tenPages emptyStore in
     In (Called (PdfLoaderLoad "pdfs/k3x9.pdf") (Segments [seg1; seg2])) tr
     /\ r = inl (Error "pdf_parse_failed").
Proof. split; [reflexivity|]. vm_compute. split; [tauto|reflexivity]. Qed.

(** ** Ingestion *)

(** C2, as amended.  With the OpenAI key configured, when the store opens
    and holds a Paper for the URL, [takeNotes] makes two calls, both to the
    database, returns the stored notes and leaves the store as it was: no
    fetch, page deletion, extraction, generation, save or indexing. *)
Theorem C2_stored_paper_short_circuit (w : World) (st : State)
        (paperUrl name : string) (pagesToDelete : option (list number))
        (existing : PaperRow) :
  truthy_opt (OPENAI_API_KEY w) = true ->
  fromExistingIndex w (clock st) = Resolved tt ->
  getPaperFault w (S (clock st)) paperUrl = None ->
  papers st !! paperUrl = Some existing ->
  exists st',
    takeNotes w paperUrl name pagesToDelete st
    = ([Called FromExistingIndex Done;
        Called (GetPaper paperUrl) (Found (Some existing))],
       st', inr (row_notes existing))
    /\ same_store st st'.
Proof.
  intros Hkey Hopen Hget Hrow. eexists.
  unfold takeNotes. rewrite Hkey. cbn [negb].
  cbv beta iota zeta delta
    [SupabaseDatabase.connect SupabaseDatabase.getPaper SupabaseDatabase.fault
     bind ret await called settle report tick].
  cbn [clock papers qaLog vectors]. rewrite Hopen, Hget, Hrow. cbn [app].
  split; [reflexivity|repeat split].
Qed.

Lemma C2_stored_paper_short_circuit_witness :
  exists st',
    takeNotes calm "u" "P" (Some [Num 2]) storeWithPaper
    = ([Called FromExistingIndex Done;
        Called (GetPaper "u") (Found (Some storedPaper))],
       st', inr (Some [note1]))
    /\ same_store storeWithPaper st'.
Proof.
  apply (C2_stored_paper_short_circuit calm storeWithPaper "u" "P"
           (Some [Num 2]) storedPaper); reflexivity.
Defined.

(** C2, as stated, fails: without the OpenAI key, [takeNotes] throws before
    it looks at the store, also when the store holds the Paper. *)
Lemma C2_counterexample :
  papers storeWithPaper !! "u" = Some storedPaper
  /\ takeNotes keyless "u" "P" None storeWithPaper
     = ([], storeWithPaper, inl (Error "Missing OPENAI_API_KEY")).
Proof. split; reflexivity. Qed.

Lemma only_app (allowed : list Stage) (tr1 tr2 : list Event) :
  only allowed tr1 -> only allowed tr2 -> only allowed (tr1 ++ tr2).
Proof.
  intros H1 H2 e He. apply in_app_or in He as [He|He]; [apply H1|apply H2]; exact He.
Qed.

Lemma only_incl (small large : list Stage) (tr : list Event) :
  only small tr -> incl small large -> only large tr.
Proof. intros H Hincl e He. apply Hincl, H, He. Qed.

#[local] Hint Resolve only_app : trace.
#[local] Hint Extern 2 (only _ ?tr) =>
  (is_var tr; eapply only_incl;
   [eassumption | intros ? ?; cbn in *; tauto]) : trace.

Lemma split_here {A} (l : list A) : l = [] ++ l.
Proof. reflexivity. Qed.

Lemma split_cons {A} (a : A) (l pre rest : list A) :
  l = pre ++ rest -> a :: l = (a :: pre) ++ rest.
Proof. intros ->. reflexivity. Qed.

Lemma split_app {A} (l0 l pre rest : list A) :
  l = pre ++ rest -> l0 ++ l = (l0 ++ pre) ++ rest.
Proof. intros ->. apply app_assoc. Qed.

(** Finds the place of a given event in a trace. *)
Ltac split_trace :=
  repeat first [apply split_here | apply split_cons | apply split_app].

Ltac find_in :=
  repeat first [apply in_eq | apply in_cons | (apply in_or_app; right)].

(** What the helpers of a run are known to do. *)
Ltac helper_runs :=
  repeat match goal with
    | E : loadPdfFromUrl _ _ _ = _ |- _ =>
        apply loadPdfFromUrl_run in E; destruct E as (? & ? & ?)
    | E : convertPdfToDocuments _ _ _ = _ |- _ =>
        apply convertPdfToDocuments_run in E; destruct E as (? & ? & ?)
    end.

(** An event of a stage that the helper at hand never reaches. *)
Ltac stray :=
  match goal with
  | Ho : only _ ?l, Hi : In _ ?l |- _ =>
      apply Ho in Hi; cbn in Hi; intuition discriminate
  end.

(** C5.  Whenever the Paper save succeeds, [takeNotes] returns the
    generated notes as success, whether the indexing that follows succeeds
    or fails; the indexing attempt comes right after the successful save,
    and there is none without it. *)
Theorem C5_indexing_failure_not_fatal (w : World) (paperUrl name : string)
        (pagesToDelete : option (list number)) (st st' : State)
        (tr : list Event) (r : exn + option (list ArxivPaperNote)) :
  takeNotes w paperUrl name pagesToDelete st = (tr, st', r) ->
  (forall row,
      In (Called (AddPaper row) Done) tr ->
      exists text notes docs outcome pre post,
        In (Called (NotesChain text) (NotesOut notes)) tr /\
        row_notes row = Some notes /\
        r = inr (Some notes) /\
        papers st' !! paperUrl = Some row /\
        tr = pre ++ Called (AddPaper row) Done
                 :: Called (AddDocuments docs) outcome :: post /\
        only [Database; Fetch; Edit; Extract; Generate; Log] pre /\
        only [Log] post)
  /\ (forall docs outcome,
         In (Called (AddDocuments docs) outcome) tr ->
         exists row, In (Called (AddPaper row) Done) tr).
Proof.
  intros H. unfold takeNotes in H. split_in H.
  all: injection H as <- <- <-.
  all: helper_runs.
  all: split; [intros row Hin|intros docs outcome Hin].
  all: in_trace; try stray.
  all: try (injection Hin as <-; do 6 eexists;
            split; [find_in|];
            split; [reflexivity|];
            split; [reflexivity|];
            split; [cbn [papers]; apply lookup_insert_eq|];
            split; [split_trace|];
            split; auto 12 with trace).
  all: eexists; find_in.
Qed.

Lemma C5_indexing_failure_not_fatal_witness :
  exists tr st',
    takeNotes overQuota "u" "P" None emptyStore = (tr, st', inr (Some [note1]))
    /\ In (Called (AddDocuments (map (withUrl "u") [seg1; seg2]))
                  (Failed (Rejection "insufficient_quota"))) tr
    /\ exists row,
        In (Called (AddPaper row) Done) tr /\
        row_notes row = Some [note1] /\ papers st' !! "u" = Some row.
Proof.
  eexists _, _. split; [vm_compute; reflexivity|].
  split; [cbn; tauto|].
  eexists. split; [find_in|].
  destruct (proj1 (C5_indexing_failure_not_fatal overQuota "u" "P" None
                     emptyStore _ _ _ eq_refl) _ ltac:(find_in))
    as (text & notes & docs & outcome & pre & post & _ & Hn & Hr & Hp & _).
  injection Hr as <-. split; [exact Hn|exact Hp].
Defined.

(** C7, as amended.  No emptiness check is made: when note generation
    returns an empty sequence, ingestion does not fail with "openai_failed";
    it goes on to save a Paper whose notes sequence is empty, and when that
    save succeeds the Paper is in the store and the empty sequence is
    returned as success. *)
Theorem C7_empty_notes_are_saved (w : World) (paperUrl name : string)
        (pagesToDelete : option (list number)) (st st' : State)
        (tr : list Event) (r : exn + option (list ArxivPaperNote)) :
  takeNotes w paperUrl name pagesToDelete st = (tr, st', r) ->
  forall text,
    In (Called (NotesChain text) (NotesOut [])) tr ->
    r <> inl (Error "openai_failed")
    /\ (exists row outcome,
           In (Called (AddPaper row) outcome) tr /\
           row_url row = paperUrl /\ row_notes row = Some [])
    /\ (forall row,
           In (Called (AddPaper row) Done) tr ->
           row_notes row = Some [] /\
           papers st' !! paperUrl = Some row /\
           r = inr (Some [])).
Proof.
  intros H text Hgen. unfold takeNotes in H. split_in H.
  all: injection H as <- <- <-.
  all: helper_runs.
  all: in_trace; try stray.
  all: injection Hgen as _ <-.
  all: split; [discriminate|].
  all: split; [do 2 eexists; split; [find_in|split; reflexivity]|].
  all: intros row Hin; in_trace; try stray.
  all: injection Hin as <-.
  all: split; [reflexivity|].
  all: split; [cbn [papers]; apply lookup_insert_eq|reflexivity].
Qed.

Lemma C7_empty_notes_are_saved_witness :
  exists tr st',
    takeNotes mute "u" "P" None emptyStore = (tr, st', inr (Some []))
    /\ exists row, papers st' !! "u" = Some row /\ row_notes row = Some [].
Proof.
  eexists _, _. split; [vm_compute; reflexivity|].
  destruct (C7_empty_notes_are_saved mute "u" "P" None emptyStore _ _ _
              eq_refl _ ltac:(find_in)) as (_ & _ & Hsaved).
  eexists. destruct (Hsaved _ ltac:(find_in)) as (Hn & Hp & _).
  split; [exact Hp|exact Hn].
Defined.

(** C7, as stated, fails: the model returns no note, and the ingestion
    succeeds and leaves in the store a Paper without any note. *)
Lemma C7_counterexample :
  let '(_, st', r) := takeNotes mute "u" "P" None emptyStore in
  r = inr (Some [])
  /\ exists row, papers st' !! "u" = Some row /\ row_notes row = Some [].
Proof.
  vm_compute. split; [reflexivity|]. eexists. split; reflexivity.
Qed.

(** ** Question answering *)

(** Saving the records of all answers: one attempt per answer, in order;
    the whole fails exactly when one attempt fails. *)
Lemma saveAll_run (w : World) (question context : string)
      (answers : list QAResponse) :
  forall (st st' : State) (tr : list Event) (r : exn + list unit),
    promise_all
      (map (fun qa => SupabaseDatabase.saveQa w question (answer qa) context
                        (followupQuestions qa)) answers) st
    = (tr, st', r) ->
    only [Record] tr
    /\ saveAttempts tr = map (recordOf question context) answers
    /\ papers st' = papers st
    /\ ((forall row e, ~ In (Called (SaveQa row) (Failed e)) tr) ->
        exists done, r = inr done)
    /\ (forall row e, In (Called (SaveQa row) (Failed e)) tr ->
        exists reason, r = inl (Rejection reason))
    /\ (forall e, r = inl e ->
        exists row, In (Called (SaveQa row) (Failed e)) tr).
Proof.
  induction answers as [|qa answers IH]; intros st st' tr r H.
  - unrun H. repeat split; eauto with trace; try discriminate.
    intros row e [].
  - cbn [map promise_all] in H.
    destruct (SupabaseDatabase.saveQa w question (answer qa) context
                (followupQuestions qa) st) as [[tr1 st1] r1] eqn:E1.
    destruct (promise_all _ st1) as [[tr2 st2] r2] eqn:E2.
    apply IH in E2 as (Honly & Hrows & Hpapers & Hok & Hko & Hwhy).
    unrun H.
    unfold SupabaseDatabase.saveQa in E1. split_in E1; unrun E1.
    all: cbn [app saveAttempts map]; fold (recordOf question context qa).
    all: rewrite Hrows, Hpapers; cbn [papers].
    all: split; [auto with trace|].
    all: split; [reflexivity|].
    all: split; [reflexivity|].
    all: split; [|split].
    + intros Hnone. exfalso. eapply Hnone. left. reflexivity.
    + intros row e Hin. eexists. reflexivity.
    + intros e [= <-]. eexists. left. reflexivity.
    + intros Hnone. destruct Hok as [done ->].
      * intros row e Hin. eapply Hnone. right. exact Hin.
      * eexists. reflexivity.
    + intros row e [Hin|Hin]; [discriminate|].
      destruct (Hko row e Hin) as (reason & ->). eexists. reflexivity.
    + intros e He. destruct r2 as [e2|done]; [|discriminate].
      injection He as <-. destruct (Hwhy e2 eq_refl) as [row Hin].
      exists row. right. exact Hin.
Qed.

(** What the saving of the records of a run is known to do. *)
Ltac qa_runs :=
  repeat match goal with
    | E : promise_all _ _ = _ |- _ =>
        apply saveAll_run in E;
        destruct E as (Honly & Hrows & Hpapers & Hok & Hko & Hwhy)
    end.

Lemma orFallback_with_text (paper : PaperRow) (fullText : string) :
  row_paper paper = Some fullText -> truthy fullText = true ->
  orFallback [] paper = [fallbackDocument fullText].
Proof. intros Hp Ht. unfold orFallback. rewrite Hp. cbn. rewrite Ht. reflexivity. Qed.

Lemma orFallback_without_text (paper : PaperRow) :
  truthy_opt (row_paper paper) = false -> orFallback [] paper = [].
Proof. intros Hp. unfold orFallback. cbn. rewrite Hp. reflexivity. Qed.

(** C4, as amended.  When the model call succeeds, [qaOnPaper] attempts to
    save one record per answer and returns the answers when no attempt
    fails; a failed attempt is neither caught nor logged by [qaOnPaper],
    which then fails with the rejection of a save (its only console output
    is the warning about the similarity search). *)
Theorem C4_failed_record_is_fatal (w : World) (question paperUrl : string)
        (st st' : State) (tr : list Event) (r : exn + list QAResponse) :
  qaOnPaper w question paperUrl st = (tr, st', r) ->
  forall docsText notesText answers,
    In (Called (QaChain docsText notesText question) (Answers answers)) tr ->
    saveAttempts tr = map (recordOf question docsText) answers
    /\ ((forall row e, ~ In (Called (SaveQa row) (Failed e)) tr) ->
        r = inr answers)
    /\ (forall row e,
           In (Called (SaveQa row) (Failed e)) tr ->
           (exists row' reason,
               r = inl (Rejection reason) /\
               In (Called (SaveQa row') (Failed (Rejection reason))) tr)
           /\ (forall level label x,
                  In (Console level label x) tr ->
                  label = "Similarity search failed, will fall back:")).
Proof.
  intros H docsText notesText answers Hmodel.
  unfold qaOnPaper in H. split_in H; unrun H.
  all: qa_runs.
  all: in_trace; try stray.
  all: injection Hmodel as <- <- <-.
  all: rewrite ?app_nil_r; cbn [saveAttempts].
  all: split; [assumption|].
  all: split;
    [ intros Hnone; destruct Hok as [done Hdone];
      [ intros row e0 Hin; eapply Hnone; find_in; exact Hin
      | first [reflexivity | discriminate Hdone] ] | ].
  all: intros row e0 Hin; in_trace.
  all: destruct (Hko _ _ Hin) as (why & Heq).
  all: try discriminate Heq.
  all: injection Heq as ->.
  all: destruct (Hwhy _ eq_refl) as (row' & Hin').
  all: split; [do 2 eexists; split; [reflexivity|find_in; exact Hin']|].
  all: intros level label x Hc; in_trace; try stray.
  all: injection Hc as _ <- _; reflexivity.
Qed.

Lemma C4_failed_record_is_fatal_witness :
  exists tr st' reason,
    qaOnPaper readOnlyLog "q?" "u" storeWithPaper
    = (tr, st', inl (Rejection reason))
    /\ saveAttempts tr = [recordOf "q?" "Results" qa1].
Proof.
  eexists _, _, _. split; [vm_compute; reflexivity|].
  refine (proj1 (C4_failed_record_is_fatal readOnlyLog "q?" "u"
                   storeWithPaper _ _ _ _ "Results" "A contribution" [qa1] _)).
  - vm_compute. reflexivity.
  - cbn. tauto.
Defined.

(** C4, as stated, fails: the model answers, the record cannot be saved,
    and [qaOnPaper] throws the rejection of the save instead of returning
    the answer; nothing is written to the console. *)
Lemma C4_counterexample :
  let '(tr, _, r) := qaOnPaper readOnlyLog "q?" "u" storeWithPaper in
  In (Called (QaChain "Results" "A contribution" "q?") (Answers [qa1])) tr
  /\ r = inl (Rejection "insert failed")
  /\ (forall level label x, ~ In (Console level label x) tr).
Proof.
  vm_compute. split; [tauto|]. split; [reflexivity|].
  intros level label x H.
  repeat (destruct H as [H|H]; [discriminate H|]). exact H.
Qed.

(** C6, as amended.  On a stored Paper that has notes and a non-empty full
    text, with the store open and the lookup answering, when the similarity
    search throws or returns nothing, [qaOnPaper] does not stop at the
    search: a search error is logged as a warning and nothing else, the
    lookup is made, [qaModel] is entered with the single fallback segment
    made of the full text and the model is called on it.  The run ends as
    the model call and the record saves end: it fails only with the error
    of the model or of a save, and returns the answers of the model when no
    save fails. *)
Theorem C6_search_failure_falls_back (w : World) (question paperUrl : string)
        (st : State) (paper : PaperRow) (notes : list ArxivPaperNote)
        (fullText : string) :
  fromExistingIndex w (clock st) = Resolved tt ->
  (similaritySearch w (S (clock st)) question 8 paperUrl = Resolved [] \/
   exists reason,
     similaritySearch w (S (clock st)) question 8 paperUrl
     = Rejected reason) ->
  getPaperFault w (S (S (clock st))) paperUrl = None ->
  papers st !! paperUrl = Some paper ->
  row_notes paper = Some notes ->
  row_paper paper = Some fullText ->
  truthy fullText = true ->
  let docsText := formatDocumentsAsString [fallbackDocument fullText] in
  let notesText := String.concat lf (map note notes) in
  let model :=
    settle (qaChain w (S (S (S (clock st)))) docsText notesText question) in
  exists saves st' r,
    qaOnPaper w question paperUrl st
    = (Called FromExistingIndex Done
         :: match similaritySearch w (S (clock st)) question 8 paperUrl with
            | Resolved docs =>
                [Called (SimilaritySearch question 8 paperUrl) (Segments docs)]
            | Rejected reason =>
                [Called (SimilaritySearch question 8 paperUrl)
                        (Failed (Rejection reason));
                 Console LWarn "Similarity search failed, will fall back:"
                         (Rejection reason)]
            end
         ++ [Called (GetPaper paperUrl) (Found (Some paper));
             Enter (FnQaModel question [fallbackDocument fullText] notes);
             Called (QaChain docsText notesText question)
                    (report Answers model)]
         ++ saves,
       st', r)
    /\ only [Record] saves
    /\ match model with
       | inl e => r = inl e /\ saves = []
       | inr answers =>
           saveAttempts saves = map (recordOf question docsText) answers
           /\ ((forall row e, ~ In (Called (SaveQa row) (Failed e)) saves) ->
               r = inr answers)
           /\ (forall e, r = inl e ->
                 exists row, In (Called (SaveQa row) (Failed e)) saves)
       end.
Proof.
  intros Hopen Hsearch Hget Hrow Hnotes Htext Htruthy docsText notesText model.
  subst docsText notesText model.
  destruct (qaOnPaper w question paperUrl st) as [[tr st'] r] eqn:H.
  unfold qaOnPaper in H. run_in H. rewrite Hopen in H. run_in H.
  destruct Hsearch as [Hs|[reason Hs]]; rewrite Hs in H |- *; run_in H.
  all: rewrite Hget in H; run_in H; rewrite Hrow, Hnotes in H.
  all: rewrite (orFallback_with_text paper fullText Htext Htruthy) in H.
  all: split_in H; unrun H.
  all: qa_runs.
  all: rewrite ?app_nil_r; cbn [settle report app].
  all: do 3 eexists; (split; [reflexivity|]).
  all: try (split; [apply only_nil|split; reflexivity]).
  all: split; [assumption|]; split; [assumption|]; split.
  all: try (intros Hnone; destruct (Hok Hnone) as [done Hdone];
            first [reflexivity|discriminate Hdone]).
  all: try (intros e0 He; discriminate He).
  all: intros e0 [= <-]; exact (Hwhy _ eq_refl).
Qed.

Lemma C6_search_failure_falls_back_witness :
  exists saves st' r,
    qaOnPaper blind "q?" "u" storeWithPaper
    = ([Called FromExistingIndex Done;
        Called (SimilaritySearch "q?" 8 "u")
               (Failed (Rejection "vector store unreachable"));
        Console LWarn "Similarity search failed, will fall back:"
                (Rejection "vector store unreachable");
        Called (GetPaper "u") (Found (Some storedPaper));
        Enter (FnQaModel "q?" [fallbackDocument "Introduction"] [note1]);
        Called (QaChain "Introduction" "A contribution" "q?") (Answers [qa1])]
         ++ saves,
       st', r)
    /\ only [Record] saves
    /\ saveAttempts saves = [recordOf "q?" "Introduction" qa1]
    /\ ((forall row e, ~ In (Called (SaveQa row) (Failed e)) saves) ->
        r = inr [qa1])
    /\ (forall e, r = inl e ->
          exists row, In (Called (SaveQa row) (Failed e)) saves).
Proof.
  exact (C6_search_failure_falls_back blind "q?" "u" storeWithPaper
           storedPaper [note1] "Introduction" eq_refl
           (or_intror (ex_intro _ "vector store unreachable" eq_refl))
           eq_refl eq_refl eq_refl eq_refl eq_refl).
Defined.

(** C6, as stated, fails: the stored Paper has notes and an empty full
    text, the search returns nothing, and the model is called without any
    segment: no fallback segment is built. *)
Lemma C6_counterexample :
  papers storeWithTextless !! "u" = Some textlessPaper
  /\ let '(tr, _, r) := qaOnPaper vacant "q?" "u" storeWithTextless in
     In (Called (SimilaritySearch "q?" 8 "u") (Segments [])) tr
     /\ In (Enter (FnQaModel "q?" [] [note1])) tr
     /\ (forall fullText,
            ~ In (Enter (FnQaModel "q?" [fallbackDocument fullText] [note1]))
                 tr)
     /\ r = inr [qa1].
Proof.
  split; [reflexivity|]. vm_compute.
  split; [tauto|]. split; [tauto|]. split; [|reflexivity].
  intros fullText H.
  repeat (destruct H as [H|H]; [discriminate H|]). exact H.
Qed.

(** C10.  The guard "No documents found" of [qaModel] is never the outcome
    of [qaOnPaper]; on a stored Paper with notes and an empty or missing
    full text, when the similarity search yields no segment, [qaModel] is
    entered with the empty segment list and the model is called. *)
Theorem C10_empty_fallback_reaches_model (w : World)
        (question paperUrl : string) (st st' : State) (tr : list Event)
        (r : exn + list QAResponse) :
  qaOnPaper w question paperUrl st = (tr, st', r) ->
  r <> inl (Error "No documents found")
  /\ forall paper notes,
      In (Called (GetPaper paperUrl) (Found (Some paper))) tr ->
      row_notes paper = Some notes ->
      truthy_opt (row_paper paper) = false ->
      (In (Called (SimilaritySearch question 8 paperUrl) (Segments [])) tr \/
       exists e,
         In (Called (SimilaritySearch question 8 paperUrl) (Failed e)) tr) ->
      In (Enter (FnQaModel question [] notes)) tr
      /\ exists outcome,
          In (Called (QaChain (formatDocumentsAsString [])
                              (String.concat lf (map note notes)) question)
                     outcome) tr.
Proof.
  intros H. unfold qaOnPaper in H. split_in H; unrun H.
  all: qa_runs.
  all: split;
    [ try discriminate;
      try (destruct (Hwhy _ eq_refl) as (row & Hin);
           destruct (Hko _ _ Hin) as (why & [= ->]); discriminate)
    | ].
  all: intros paper notes Hpaper Hnotes Htext [Hsearch|[e0 Hsearch]].
  all: in_trace; try stray.
  all: injection Hpaper as Hp; subst.
  all: try congruence.
  all: match goal with
       | E1 : row_notes ?q = Some ?a, E2 : row_notes ?q = Some ?b |- _ =>
           assert (a = b) by congruence; subst
       end.
  all: try (injection Hsearch as Hs; subst).
  all: rewrite ?app_nil_r.
  all: rewrite !orFallback_without_text in * by assumption.
  all: split; [find_in|eexists; find_in].
Qed.

Lemma C10_empty_fallback_reaches_model_witness :
  exists tr st' r,
    qaOnPaper blind "q?" "u" storeWithTextless = (tr, st', r)
    /\ In (Enter (FnQaModel "q?" [] [note1])) tr
    /\ r = inr [qa1].
Proof.
  eexists _, _, _. split; [vm_compute; reflexivity|].
  split; [|reflexivity].
  refine (proj1 (proj2 (C10_empty_fallback_reaches_model blind "q?" "u"
                          storeWithTextless _ _ _ _)
                   textlessPaper [note1] _ _ _ _)).
  - vm_compute. reflexivity.
  - cbn. tauto.
  - reflexivity.
  - reflexivity.
  - right. eexists. cbn. eauto.
Defined.

(** * Further properties *)

(** ** Ingestion: failures, frame and composition *)

Lemma convertPdfToDocuments_rejection (w : World) (pdf : Buffer)
      (st st' : State) (tr : list Event) (r : exn + list Document) :
  convertPdfToDocuments w pdf st = (tr, st', r) ->
  forall reason, r = inl (Rejection reason) ->
    exists p, tr = [Enter (FnConvertPdfToDocuments pdf);
                    Called (WriteFile p pdf) (Failed (Rejection reason))].
Proof.
  intros H reason Hr. unfold convertPdfToDocuments in H. split_in H; unrun H.
  all: try discriminate Hr.
  injection Hr as <-. eexists. reflexivity.
Qed.

Lemma convertPdfToDocuments_enters (w : World) (pdf : Buffer)
      (st st' : State) (tr : list Event) (r : exn + list Document) :
  convertPdfToDocuments w pdf st = (tr, st', r) ->
  exists rest, tr = Enter (FnConvertPdfToDocuments pdf) :: rest
               /\ only [Extract; Log] rest
               /\ forall f, ~ In (Enter f) rest.
Proof.
  intros H. unfold convertPdfToDocuments in H. split_in H; unrun H.
  all: eexists; split; [reflexivity|]; split; [auto 12 with trace|].
  all: intros f Hin; in_trace.
Qed.

Lemma loadPdfFromUrl_bytes (w : World) (url : string) (st st' : State)
      (tr : list Event) (r : exn + Buffer) :
  loadPdfFromUrl w url st = (tr, st', r) ->
  forall b, r = inr b ->
    exists c, tr = [Enter (FnLoadPdfFromUrl url); Called c (Bytes b)]
              /\ stage (Called c (Bytes b)) = Fetch.
Proof.
  intros H b Hr. unfold loadPdfFromUrl in H. split_in H; unrun H.
  all: try discriminate Hr.
  all: injection Hr as <-; eexists; split; reflexivity.
Qed.

(** What the helpers of an ingestion are known to do, kept with the
    equations of their runs. *)
Ltac ingest_facts :=
  repeat match goal with
    | E : loadPdfFromUrl _ _ _ = _ |- _ =>
        pose proof (loadPdfFromUrl_bytes _ _ _ _ _ _ E);
        apply loadPdfFromUrl_run in E; destruct E as (? & ? & ?)
    | E : convertPdfToDocuments _ _ _ = _ |- _ =>
        pose proof (convertPdfToDocuments_rejection _ _ _ _ _ _ E);
        pose proof (convertPdfToDocuments_enters _ _ _ _ _ _ E);
        apply convertPdfToDocuments_run in E; destruct E as (? & ? & ?)
    end.

Ltac store_same :=
  unfold same_store in *; cbn [papers qaLog vectors] in *;
  intuition congruence.

(** X1.  A failed ingestion leaves the store as it was, and its error is
    one of the six errors that [takeNotes] builds or the raw rejection of
    the opening of the store, of the lookup or of the staging write. *)
Theorem takeNotes_failure_leaves_store (w : World) (paperUrl name : string)
        (pagesToDelete : option (list number)) (st st' : State)
        (tr : list Event) (r : exn + option (list ArxivPaperNote)) :
  takeNotes w paperUrl name pagesToDelete st = (tr, st', r) ->
  forall e, r = inl e ->
    same_store st st'
    /\ ((exists message, e = Error message /\ In message ingestionErrors)
        \/ (exists reason,
               e = Rejection reason /\
               (In (Called FromExistingIndex (Failed e)) tr \/
                In (Called (GetPaper paperUrl) (Failed e)) tr \/
                exists p b, In (Called (WriteFile p b) (Failed e)) tr))).
Proof.
  intros H e He. unfold takeNotes in H. split_in H; unrun H.
  all: try discriminate He.
  all: injection He as <-.
  all: ingest_facts.
  all: split; [store_same|].
  all: repeat match goal with
         | Hl : forall e, inl ?x = inl e -> _ |- _ =>
             pose proof (Hl _ eq_refl); clear Hl
         end.
  all: try (left; eexists; split; [first [reflexivity|eassumption]|cbn; tauto]).
  all: try (right; eexists; split; [reflexivity|cbn; solve [eauto 10]]).
  all: match goal with
       | Hd : _ = Error "pdf_parse_failed" \/ _ |- _ =>
           destruct Hd as [->|(reason & ->)]
       end.
  all: try (left; eexists; split; [reflexivity|cbn; tauto]).
  all: right; eexists; split; [reflexivity|]; right; right.
  all: match goal with
       | Hrej : forall reason, inl _ = inl (Rejection reason) -> _ |- _ =>
           destruct (Hrej _ eq_refl) as (p & ->)
       end.
  all: do 2 eexists; find_in.
Qed.

Lemma takeNotes_failure_leaves_store_witness :
  exists tr st',
    takeNotes sticky "v" "P" None storeWithTextless
    = (tr, st', inl (Error "pdf_parse_failed"))
    /\ same_store storeWithTextless st'.
Proof.
  eexists _, _. split; [vm_compute; reflexivity|].
  refine (proj1 (takeNotes_failure_leaves_store sticky "v" "P" None
                   storeWithTextless _ _ _ _ _ eq_refl)).
  vm_compute. reflexivity.
Defined.

Lemma takeNotes_stored (w : World) (paperUrl name : string)
      (pagesToDelete : option (list number)) (st st' : State)
      (tr : list Event) (r : exn + option (list ArxivPaperNote)) :
  takeNotes w paperUrl name pagesToDelete st = (tr, st', r) ->
  (forall notes, r = inr notes ->
     truthy_opt (OPENAI_API_KEY w) = true /\
     exists row, papers st' !! paperUrl = Some row /\ row_notes row = notes)
  /\ (forall other, other <> paperUrl ->
        papers st' !! other = papers st !! other)
  /\ qaLog st' = qaLog st.
Proof.
  intros H. unfold takeNotes in H. split_in H; unrun H.
  all: ingest_facts.
  all: split;
    [ intros notes [=]; subst; cbn [papers];
      (split; [reflexivity|]);
      first [ eexists; split; [eassumption|reflexivity]
            | eexists; split; [apply lookup_insert_eq|reflexivity] ]
    | split;
      [ intros other Hne; cbn [papers row_url];
        rewrite ?lookup_insert_ne by congruence; store_same
      | store_same ] ].
Qed.

(** X2.  After a successful ingestion the store holds, under the URL, a
    Paper whose notes are the returned ones; whatever the outcome, the
    Papers under other URLs and the QA log are as before. *)
Theorem takeNotes_success_is_stored (w : World) (paperUrl name : string)
        (pagesToDelete : option (list number)) (st st' : State)
        (tr : list Event) (r : exn + option (list ArxivPaperNote)) :
  takeNotes w paperUrl name pagesToDelete st = (tr, st', r) ->
  (forall notes, r = inr notes ->
     exists row, papers st' !! paperUrl = Some row /\ row_notes row = notes)
  /\ (forall other, other <> paperUrl ->
        papers st' !! other = papers st !! other)
  /\ qaLog st' = qaLog st.
Proof.
  intros H. apply takeNotes_stored in H as (Hrow & Hframe & Hlog).
  split; [|split; assumption].
  intros notes Hr. exact (proj2 (Hrow notes Hr)).
Qed.

Lemma takeNotes_success_is_stored_witness :
  exists tr st' row,
    takeNotes calm "v" "P" (Some [Num 2; Num 4]) storeWithPaper
    = (tr, st', inr (Some [note1]))
    /\ papers st' !! "v" = Some row /\ row_notes row = Some [note1]
    /\ papers st' !! "u" = Some storedPaper.
Proof.
  eexists _, _, _. split; [vm_compute; reflexivity|].
  split; [vm_compute; reflexivity|]. split; [reflexivity|].
  refine (proj1 (proj2 (takeNotes_success_is_stored calm "v" "P"
                          (Some [Num 2; Num 4]) storeWithPaper _ _ _ _))
                "u" _).
  - vm_compute. reflexivity.
  - discriminate.
Defined.

(** X3.  Ingestion is idempotent: after a successful [takeNotes] on a URL,
    a second one on that URL (the store opening and answering the lookup)
    makes the two database calls only, returns the same notes and leaves
    the store as it is. *)
Theorem takeNotes_twice (w : World) (paperUrl name name' : string)
        (pagesToDelete pagesToDelete' : option (list number))
        (st st1 : State) (tr1 : list Event)
        (notes : option (list ArxivPaperNote)) :
  takeNotes w paperUrl name pagesToDelete st = (tr1, st1, inr notes) ->
  fromExistingIndex w (clock st1) = Resolved tt ->
  getPaperFault w (S (clock st1)) paperUrl = None ->
  exists row st2,
    takeNotes w paperUrl name' pagesToDelete' st1
    = ([Called FromExistingIndex Done;
        Called (GetPaper paperUrl) (Found (Some row))],
       st2, inr notes)
    /\ same_store st1 st2.
Proof.
  intros H Hopen Hget.
  apply takeNotes_stored in H as (Hrow & _ & _).
  destruct (Hrow notes eq_refl) as (Hkey & row & Hstored & Hnotes).
  exists row. eexists.
  unfold takeNotes. rewrite Hkey. cbn [negb].
  cbv beta iota zeta delta
    [SupabaseDatabase.connect SupabaseDatabase.getPaper SupabaseDatabase.fault
     bind ret await called settle report tick].
  cbn [clock papers qaLog vectors]. rewrite Hopen, Hget, Hstored. cbn [app].
  rewrite Hnotes. split; [reflexivity|repeat split].
Qed.

Lemma takeNotes_twice_witness :
  exists tr1 st1 row st2,
    takeNotes calm "u" "P" (Some [Num 2]) emptyStore
    = (tr1, st1, inr (Some [note1]))
    /\ takeNotes calm "u" "Q" None st1
       = ([Called FromExistingIndex Done;
           Called (GetPaper "u") (Found (Some row))],
          st2, inr (Some [note1])).
Proof.
  eexists _, _.
  assert (Hrun : takeNotes calm "u" "P" (Some [Num 2]) emptyStore
                 = (_, _, inr (Some [note1]))) by (vm_compute; reflexivity).
  destruct (takeNotes_twice calm "u" "P" "Q" (Some [Num 2]) None
              emptyStore _ _ _ Hrun eq_refl eq_refl)
    as (row & st2 & Hsecond & _).
  exists row, st2. split; [exact Hrun|exact Hsecond].
Defined.

Lemma withUrl_tagged (paperUrl : string) (documents : list Document) :
  Forall (fun d => metadata d !! "url" = Some paperUrl)
         (map (withUrl paperUrl) documents).
Proof.
  apply Forall_forall. intros d Hd.
  apply list_elem_of_In, in_map_iff in Hd as (d0 & <- & _).
  apply lookup_insert_eq.
Qed.

Lemma withUrl_same_text (paperUrl : string) (documents : list Document) :
  formatDocumentsAsString (map (withUrl paperUrl) documents)
  = formatDocumentsAsString documents.
Proof. unfold formatDocumentsAsString. rewrite map_map. reflexivity. Qed.

(** X4.  The segments that an ingestion indexes are the extracted ones,
    in order, each with its text and its metadata as extracted but for the
    entry [url], which is set to the URL of the paper; the tagging leaves
    the text as it is, and this text is the full text saved with the
    Paper. *)
Theorem takeNotes_tags_segments (w : World) (paperUrl name : string)
        (pagesToDelete : option (list number)) (st st' : State)
        (tr : list Event) (r : exn + option (list ArxivPaperNote)) :
  takeNotes w paperUrl name pagesToDelete st = (tr, st', r) ->
  forall docs outcome,
    In (Called (AddDocuments docs) outcome) tr ->
    Forall (fun d => metadata d !! "url" = Some paperUrl) docs
    /\ exists extracted row,
        In (Enter (FnGenerateNotes extracted)) tr /\
        docs = map (fun doc =>
                      mkDocument (pageContent doc)
                                 (<["url" := paperUrl]> (metadata doc)))
                   extracted /\
        In (Called (AddPaper row) Done) tr /\
        row_paper row = Some (formatDocumentsAsString extracted).
Proof.
  intros H docs outcome Hin. unfold takeNotes in H. split_in H; unrun H.
  all: helper_runs.
  all: in_trace; try stray.
  all: injection Hin as <-.
  all: split; [apply withUrl_tagged|].
  all: do 2 eexists; split; [find_in|].
  all: split; [reflexivity|].
  all: split; [find_in|].
  all: cbn [row_paper]; rewrite withUrl_same_text; reflexivity.
Qed.

Lemma takeNotes_tags_segments_witness :
  exists tr st' docs,
    takeNotes calm "u" "P" None emptyStore = (tr, st', inr (Some [note1]))
    /\ In (Called (AddDocuments docs) Done) tr
    /\ Forall (fun d => metadata d !! "url" = Some "u") docs.
Proof.
  eexists _, _, _. split; [vm_compute; reflexivity|].
  split; [find_in|].
  refine (proj1 (takeNotes_tags_segments calm "u" "P" None emptyStore
                   _ _ _ _ _ Done _)).
  - vm_compute. reflexivity.
  - find_in.
Defined.

(** X5.  What extraction receives: the bytes answered by the one fetching
    call, as they are when no page number is given, and after
    [deletePagesFromPdf] otherwise. *)
Theorem takeNotes_bytes_flow (w : World) (paperUrl name : string)
        (pagesToDelete : option (list number)) (st st' : State)
        (tr : list Event) (r : exn + option (list ArxivPaperNote)) :
  takeNotes w paperUrl name pagesToDelete st = (tr, st', r) ->
  forall staged,
    In (Enter (FnConvertPdfToDocuments staged)) tr ->
    exists c fetched,
      In (Called c (Bytes fetched)) tr /\
      stage (Called c (Bytes fetched)) = Fetch /\
      match pagesToDelete with
      | Some (p :: ps) =>
          In (Enter (FnDeletePagesFromPdf fetched (p :: ps))) tr /\
          deletePages fetched (p :: ps) = inr staged
      | _ =>
          staged = fetched /\
          forall b ps, ~ In (Enter (FnDeletePagesFromPdf b ps)) tr
      end.
Proof.
  intros H staged Hin. unfold takeNotes in H. split_in H; unrun H.
  all: ingest_facts.
  all: repeat match goal with
         | Hb : forall b, inr ?x = inr b -> _ |- _ =>
             destruct (Hb _ eq_refl) as (c & -> & Hstage); clear Hb
         | He : exists rest, _ = Enter _ :: rest /\ _ |- _ =>
             destruct He as (rest & -> & Hrest & Hnone)
         end.
  all: in_trace; try stray.
  all: try (exfalso; eapply Hnone; eassumption).
  all: try (injection Hin as <-).
  all: do 2 eexists; split; [find_in|]; split; [exact Hstage|].
  all: first
         [ split; [find_in|assumption]
         | split; [reflexivity|]; intros b0 ps0 Hd; in_trace;
           exfalso; eapply Hnone; eassumption ].
Qed.

Lemma takeNotes_bytes_flow_witness :
  exists tr st' r,
    takeNotes calm "u" "P" (Some [Num 2; Num 4]) emptyStore = (tr, st', r)
    /\ In (Enter (FnConvertPdfToDocuments
                    (PdfBytes ["p1"; "p3"; "p5"; "p6"; "p7"; "p8"; "p9";
                               "p10"]))) tr
    /\ exists c fetched, In (Called c (Bytes fetched)) tr
                         /\ stage (Called c (Bytes fetched)) = Fetch.
Proof.
  eexists _, _, _. split; [vm_compute; reflexivity|].
  split; [find_in|].
  destruct (takeNotes_bytes_flow calm "u" "P" (Some [Num 2; Num 4])
              emptyStore _ _ _ eq_refl _ ltac:(find_in))
    as (c & fetched & Hin & Hstage & _).
  exists c, fetched. split; [exact Hin|exact Hstage].
Defined.

Lemma inOrder_weaken (tr : list Event) :
  forall from k, (from <= k)%nat -> inOrder k tr -> inOrder from tr.
Proof.
  induction tr as [|e tr IH]; intros from k Hle H; [exact I|].
  cbn in *. destruct (rank (stage e)).
  - destruct H. split; [lia|assumption].
  - eapply IH; eassumption.
Qed.

Lemma inOrder_only_app (X : Stage) (k : nat) (l rest : list Event) :
  only [X; Log] l -> rank X = Some k ->
  forall from, (from <= k)%nat -> inOrder k rest -> inOrder from (l ++ rest).
Proof.
  intros Hl Hk. induction l as [|e l IH]; intros from Hle Hrest.
  - cbn [app]. eapply inOrder_weaken; eassumption.
  - cbn [app inOrder].
    assert (He : In (stage e) [X; Log]) by (apply Hl; left; reflexivity).
    assert (Hl' : only [X; Log] l) by (intros x Hx; apply Hl; right; exact Hx).
    destruct He as [He|[He|[]]]; rewrite <- He.
    + rewrite Hk. split; [exact Hle|]. apply IH; [exact Hl'|lia|exact Hrest].
    + cbn [rank]. apply IH; assumption.
Qed.

(** The trace is made of blocks that come in order. *)
Ltac in_order :=
  repeat first
    [ exact I
    | eapply inOrder_only_app; [eassumption|reflexivity|cbn; lia|]
    | cbn [inOrder stage rank app]; split; [lia|] ].

(** X6.  The calls of an ingestion come in the order of the pipeline:
    database, fetch, page deletion, extraction, generation, save, indexing;
    no stage is visited again after a later one, and no QA stage is
    entered. *)
Theorem takeNotes_in_pipeline_order (w : World) (paperUrl name : string)
        (pagesToDelete : option (list number)) (st st' : State)
        (tr : list Event) (r : exn + option (list ArxivPaperNote)) :
  takeNotes w paperUrl name pagesToDelete st = (tr, st', r) ->
  inOrder 0 tr
  /\ only [Database; Fetch; Edit; Extract; Generate; Save; Index; Log] tr.
Proof.
  intros H. unfold takeNotes in H. split_in H; unrun H.
  all: helper_runs.
  all: split; [in_order|auto 20 with trace].
Qed.

Lemma takeNotes_in_pipeline_order_witness :
  exists tr st' r,
    takeNotes overQuota "u" "P" (Some [Num 1]) emptyStore = (tr, st', r)
    /\ inOrder 0 tr.
Proof.
  eexists _, _, _. split; [vm_compute; reflexivity|].
  exact (proj1 (takeNotes_in_pipeline_order overQuota "u" "P" (Some [Num 1])
                  emptyStore _ _ _ eq_refl)).
Defined.

(** ** Extraction and fetching: what a run leaves behind *)

(** X7.  A run of the extraction that staged its file ends with an attempt
    to remove that file, and every parser it called read that file; when
    the staging write fails, nothing else is called and its rejection is
    thrown as it is. *)
Theorem convertPdfToDocuments_cleans_up (w : World) (pdf : Buffer)
        (st st' : State) (tr : list Event) (r : exn + list Document) :
  convertPdfToDocuments w pdf st = (tr, st', r) ->
  exists p outcome,
    In (Called (WriteFile p pdf) outcome) tr
    /\ (outcome = Done ->
        (exists pre removed, tr = pre ++ [Called (Unlink p) removed])
        /\ (forall q a, In (Called (PdfLoaderLoad q) a) tr -> q = p)
        /\ (forall q s t a,
               In (Called (UnstructuredLoad q s t) a) tr -> q = p))
    /\ (forall e, outcome = Failed e ->
        tr = [Enter (FnConvertPdfToDocuments pdf);
              Called (WriteFile p pdf) (Failed e)]
        /\ r = inl e).
Proof.
  intros H. unfold convertPdfToDocuments in H. split_in H; unrun H.
  all: do 2 eexists; split; [find_in|]; split.
  all: try discriminate.
  all: try (intros e [= <-]; split; reflexivity).
  all: intros _; split; [do 2 eexists; split_trace|].
  all: split; [intros ? ? Hin|intros ? ? ? ? Hin].
  all: in_trace; injection Hin as <-; reflexivity.
Qed.

Lemma convertPdfToDocuments_cleans_up_witness :
  exists tr st' r pre removed,
    convertPdfToDocuments sticky tenPages emptyStore = (tr, st', r)
    /\ tr = pre ++ [Called (Unlink "pdfs/k3x9.pdf") removed].
Proof.
  eexists _, _, _.
  assert (Hrun : convertPdfToDocuments sticky tenPages emptyStore
                 = (_, _, _)) by (vm_compute; reflexivity).
  destruct (convertPdfToDocuments_cleans_up sticky tenPages emptyStore
              _ _ _ Hrun) as (p & outcome & Hin & Hdone & _).
  repeat (destruct Hin as [Hin|Hin]; [try discriminate Hin|]);
    [|destruct Hin].
  injection Hin as <- <-.
  destruct (proj1 (Hdone eq_refl)) as (pre & removed & Htr).
  exists pre, removed. split; [exact Hrun|exact Htr].
Defined.

(** X8.  The segments that extraction returns are those of one of its two
    parsers; the Unstructured service is called only when its key is set,
    and then with the strategy "hi_res" and the 60000 ms timer. *)
Theorem convertPdfToDocuments_provenance (w : World) (pdf : Buffer)
        (st st' : State) (tr : list Event) (r : exn + list Document) :
  convertPdfToDocuments w pdf st = (tr, st', r) ->
  (forall docs, r = inr docs ->
     (exists p s t, In (Called (UnstructuredLoad p s t) (Segments docs)) tr)
     \/ (exists p, In (Called (PdfLoaderLoad p) (Segments docs)) tr))
  /\ (forall p s t a,
         In (Called (UnstructuredLoad p s t) a) tr ->
         truthy_opt (UNSTRUCTURED_API_KEY w) = true
         /\ s = "hi_res" /\ t = 60000).
Proof.
  intros H. unfold convertPdfToDocuments in H. split_in H; unrun H.
  all: split;
    [ intros docs [=]; subst;
      first [ solve [left; do 3 eexists; find_in]
            | solve [right; eexists; find_in] ]
    | intros ? ? ? ? Hin; in_trace; injection Hin as _ <- <- _;
      repeat split ].
Qed.

Lemma convertPdfToDocuments_provenance_witness :
  exists tr st',
    convertPdfToDocuments slow tenPages emptyStore
    = (tr, st', inr [seg1; seg2])
    /\ exists p, In (Called (PdfLoaderLoad p) (Segments [seg1; seg2])) tr.
Proof.
  eexists _, _. split; [vm_compute; reflexivity|].
  destruct (proj1 (convertPdfToDocuments_provenance slow tenPages emptyStore
                     _ _ _ eq_refl) _ eq_refl)
    as [(p & s & t & Hin)|Hlocal]; [|exact Hlocal].
  exfalso. repeat (destruct Hin as [Hin|Hin]; [discriminate Hin|]).
  exact Hin.
Defined.

(** X9.  A fetch that succeeds is the run of one call, whose bytes it
    returns, and logs nothing; a fetch that fails ends by logging the
    cause under "Failed to load PDF:" and throws "download_pdf_failed" in
    its place. *)
Theorem loadPdfFromUrl_outcomes (w : World) (url : string) (st st' : State)
        (tr : list Event) (r : exn + Buffer) :
  loadPdfFromUrl w url st = (tr, st', r) ->
  match r with
  | inr bytes =>
      exists c, tr = [Enter (FnLoadPdfFromUrl url); Called c (Bytes bytes)]
  | inl e =>
      e = Error "download_pdf_failed"
      /\ exists pre cause,
          tr = pre ++ [Console LError "Failed to load PDF:" cause]
          /\ (pre = [Enter (FnLoadPdfFromUrl url)]
              \/ exists c, pre = [Enter (FnLoadPdfFromUrl url);
                                  Called c (Failed cause)])
  end.
Proof.
  intros H. unfold loadPdfFromUrl in H. split_in H; unrun H.
  all: first
         [ solve [eexists; reflexivity]
         | split; [reflexivity|]; do 2 eexists; split; [split_trace|];
           first [ solve [left; reflexivity]
                 | solve [right; eexists; reflexivity] ] ].
Qed.

Lemma loadPdfFromUrl_outcomes_witness :
  exists tr st' c,
    loadPdfFromUrl calm "file:///tmp/a.pdf" emptyStore
    = (tr, st', inr tenPages)
    /\ tr = [Enter (FnLoadPdfFromUrl "file:///tmp/a.pdf");
             Called c (Bytes tenPages)].
Proof.
  eexists _, _.
  assert (Hrun : loadPdfFromUrl calm "file:///tmp/a.pdf" emptyStore
                 = (_, _, inr tenPages)) by (vm_compute; reflexivity).
  destruct (loadPdfFromUrl_outcomes calm _ _ _ _ _ Hrun) as (c & Htr).
  exists c. split; [exact Hrun|exact Htr].
Defined.

(** ** Page deletion: bounds, ascending requests, repeated numbers *)

Lemma removePages_success (ps : list number) :
  forall (cur out : list Page) (off : Z),
    removePages cur off ps = inr out ->
    (length out + length ps = length cur)%nat
    /\ sublist out cur
    /\ forall i x, nth_error ps i = Some x ->
         exists p, x = Num p /\
                   off + Z.of_nat i <= p < off + Z.of_nat (length cur).
Proof.
  induction ps as [|x ps IH]; intros cur out off H.
  - injection H as <-. cbn. split; [lia|]. split; [reflexivity|].
    intros [|i] y [=].
  - cbn [removePages] in H.
    destruct x as [|p]; [discriminate H|]. cbn [sub PDFDocument.removePage] in H.
    destruct ((0 <=? p - off) && (p - off <? Z.of_nat (length cur))) eqn:Hb;
      [|discriminate H].
    apply andb_true_iff in Hb as [Hlo Hhi].
    apply Z.leb_le in Hlo. apply Z.ltb_lt in Hhi.
    apply IH in H as (Hlen & Hsub & Hall).
    rewrite length_delete in Hlen, Hall by (apply lookup_lt_is_Some_2; lia).
    split; [cbn [length]; lia|].
    split; [etransitivity; [exact Hsub|apply sublist_delete]|].
    intros [|i] y Hy.
    + injection Hy as <-. exists p. split; [reflexivity|lia].
    + cbn in Hy. destruct (Hall i y Hy) as (q & -> & Hq).
      exists q. split; [reflexivity|lia].
Qed.

(** X10.  When [deletePagesFromPdf] succeeds, the pages it is left with
    are pages of the input in their order, one less per requested number,
    and every requested entry is a number between its own 1-based position
    in the request and the page count of the input: a request with a
    non-numeric or non-positive entry, or with more entries than pages,
    always fails.  The result holds the pages left, or a single blank page
    when the request removed every page. *)
Theorem deletePages_success (pdf out : Buffer) (ps : list number) :
  deletePages pdf ps = inr out ->
  exists pages kept,
    pdf = PdfBytes pages
    /\ out = PdfBytes (match kept with
                       | [] => [PDFDocument.blankPage]
                       | _ :: _ => kept
                       end)
    /\ (length kept + length ps = length pages)%nat
    /\ sublist kept pages
    /\ forall i x, nth_error ps i = Some x ->
         exists p, x = Num p /\
                   Z.of_nat i + 1 <= p <= Z.of_nat (length pages).
Proof.
  unfold deletePages. destruct pdf as [pages|bytes]; cbn [PDFDocument.load];
    [|discriminate].
  destruct (removePages pages 1 ps) as [e|kept] eqn:H; [discriminate|].
  intros [= <-]. exists pages, kept.
  apply removePages_success in H as (Hlen & Hsub & Hall).
  split; [reflexivity|].
  split; [destruct kept; reflexivity|].
  do 2 (split; [assumption|]).
  intros i x Hx. destruct (Hall i x Hx) as (p & -> & Hp).
  exists p. split; [reflexivity|lia].
Qed.

Lemma deletePages_success_witness :
  exists pages kept,
    PdfBytes ["a"; "b"] = PdfBytes pages
    /\ PdfBytes [PDFDocument.blankPage]
       = PdfBytes (match kept with
                   | [] => [PDFDocument.blankPage]
                   | _ :: _ => kept
                   end)
    /\ (length kept + length [Num 1; Num 2] = length pages)%nat
    /\ sublist kept pages
    /\ forall i x, nth_error [Num 1; Num 2] i = Some x ->
         exists p, x = Num p /\
                   Z.of_nat i + 1 <= p <= Z.of_nat (length pages).
Proof.
  exact (deletePages_success (PdfBytes ["a"; "b"])
           (PdfBytes [PDFDocument.blankPage]) [Num 1; Num 2] eq_refl).
Defined.

(** X11.  For page numbers given in ascending order and within the
    document, [deletePagesFromPdf] returns the document without exactly the
    pages that bear these numbers in the original, or a single blank page
    when these are all its pages; it makes no call to a collaborator. *)
Theorem deletePagesFromPdf_ascending (pages : list Page) (ps : list Z)
        (st : State) :
  StronglySorted Z.lt ps ->
  Forall (fun p => 1 <= p <= Z.of_nat (length pages)) ps ->
  deletePagesFromPdf (PdfBytes pages) (map Num ps) st
  = ([Enter (FnDeletePagesFromPdf (PdfBytes pages) (map Num ps))], st,
     inr (PdfBytes (match keepPages pages 1 ps with
                    | [] => [PDFDocument.blankPage]
                    | kept => kept
                    end))).
Proof.
  intros Hsort Hrange.
  unfold deletePagesFromPdf, deletePages, bind, enter, emit, lift.
  cbn [PDFDocument.load].
  rewrite removePages_ascending_from; [|assumption|].
  - unfold PDFDocument.save. destruct (keepPages pages 1 ps); reflexivity.
  - eapply Forall_impl; [exact Hrange|]. cbn. intros; lia.
Qed.

Lemma deletePagesFromPdf_ascending_witness :
  deletePagesFromPdf (PdfBytes ["a"; "b"; "c"]) (map Num [1; 2; 3]) emptyStore
  = ([Enter (FnDeletePagesFromPdf (PdfBytes ["a"; "b"; "c"])
                                  (map Num [1; 2; 3]))],
     emptyStore, inr (PdfBytes [PDFDocument.blankPage])).
Proof.
  apply (deletePagesFromPdf_ascending ["a"; "b"; "c"] [1; 2; 3] emptyStore).
  - repeat constructor; lia.
  - repeat constructor; cbn; lia.
Defined.

Lemma delete_delete_adjacent {A} (l : list A) :
  forall i : nat, delete i (delete (S i) l) = delete i (delete i l).
Proof.
  induction l as [|a l IH]; intros i; [reflexivity|].
  destruct i as [|i]; cbn.
  - destruct l; reflexivity.
  - f_equal. apply IH.
Qed.

(** X12.  A page number given twice does not delete one page twice: the
    request [p, p] behaves as the request [p - 1, p], whatever the
    document and the number. *)
Theorem deletePages_repeated_number (pdf : Buffer) (p : Z) :
  deletePages pdf [Num p; Num p] = deletePages pdf [Num (p - 1); Num p].
Proof.
  unfold deletePages. destruct pdf as [pages|bytes]; [|reflexivity].
  cbn [PDFDocument.load removePages sub PDFDocument.removePage].
  destruct (Z_lt_le_dec p 2) as [Hsmall|Hbig].
  - replace ((0 <=? p - 1 - 1) && (p - 1 - 1 <? Z.of_nat (length pages)))
      with false by (symmetry; apply andb_false_iff; left;
                     apply Z.leb_gt; lia).
    destruct ((0 <=? p - 1) && (p - 1 <? Z.of_nat (length pages))) eqn:Hb;
      [|reflexivity].
    cbn [PDFDocument.removePage].
    replace (0 <=? p - (1 + 1)) with false by (symmetry; apply Z.leb_gt; lia).
    reflexivity.
  - destruct (Z_lt_le_dec (Z.of_nat (length pages)) p) as [Hover|Hin].
    + replace ((0 <=? p - 1) && (p - 1 <? Z.of_nat (length pages)))
        with false by (symmetry; apply andb_false_iff; right;
                       apply Z.ltb_ge; lia).
      destruct ((0 <=? p - 1 - 1) && (p - 1 - 1 <? Z.of_nat (length pages)))
        eqn:Hb; [|reflexivity].
      apply andb_true_iff in Hb as [_ Hhi]. apply Z.ltb_lt in Hhi.
      cbn [PDFDocument.removePage].
      rewrite length_delete by (apply lookup_lt_is_Some_2; lia).
      replace (p - (1 + 1) <? Z.of_nat (length pages - 1)) with false
        by (symmetry; apply Z.ltb_ge; lia).
      rewrite andb_false_r. reflexivity.
    + replace ((0 <=? p - 1) && (p - 1 <? Z.of_nat (length pages)))
        with true by (symmetry; apply andb_true_iff; split;
                      [apply Z.leb_le|apply Z.ltb_lt]; lia).
      replace ((0 <=? p - 1 - 1) && (p - 1 - 1 <? Z.of_nat (length pages)))
        with true by (symmetry; apply andb_true_iff; split;
                      [apply Z.leb_le|apply Z.ltb_lt]; lia).
      cbn [PDFDocument.removePage].
      rewrite !length_delete by (apply lookup_lt_is_Some_2; lia).
      replace ((0 <=? p - (1 + 1))
               && (p - (1 + 1) <? Z.of_nat (length pages - 1)))
        with true by (symmetry; apply andb_true_iff; split;
                      [apply Z.leb_le|apply Z.ltb_lt]; lia).
      replace (Z.to_nat (p - 1)) with (S (Z.to_nat (p - (1 + 1)))) by lia.
      replace (Z.to_nat (p - 1 - 1)) with (Z.to_nat (p - (1 + 1))) by lia.
      rewrite delete_delete_adjacent. reflexivity.
Qed.

(** ** Question answering: missing paper, frame, log *)

Lemma saveAll_log (w : World) (question context : string)
      (answers : list QAResponse) :
  forall (st st' : State) (tr : list Event) (r : exn + list unit),
    promise_all
      (map (fun qa => SupabaseDatabase.saveQa w question (answer qa) context
                        (followupQuestions qa)) answers) st
    = (tr, st', r) ->
    vectors st' = vectors st
    /\ qaLog st' = qaLog st ++ savedRows tr
    /\ (forall done, r = inr done ->
          savedRows tr = map (recordOf question context) answers).
Proof.
  induction answers as [|qa answers IH]; intros st st' tr r H.
  - unrun H. cbn. rewrite app_nil_r. repeat split.
  - cbn [map promise_all] in H.
    destruct (SupabaseDatabase.saveQa w question (answer qa) context
                (followupQuestions qa) st) as [[tr1 st1] r1] eqn:E1.
    destruct (promise_all _ st1) as [[tr2 st2] r2] eqn:E2.
    apply IH in E2 as (Hvec & Hlog & Hall).
    unrun H.
    unfold SupabaseDatabase.saveQa in E1. split_in E1; unrun E1.
    all: cbn [app savedRows map vectors qaLog] in *.
    all: fold (recordOf question context qa).
    all: rewrite Hvec, Hlog.
    all: split; [reflexivity|].
    all: split; [rewrite <- ?app_assoc; reflexivity|].
    + discriminate.
    + intros done Hd. destruct r2 as [e2|done2]; [discriminate Hd|].
      rewrite (Hall done2 eq_refl). reflexivity.
Qed.

(** What the saving of the records of a run is known to do to the store. *)
Ltac qa_facts :=
  repeat match goal with
    | E : promise_all _ _ = _ |- _ =>
        pose proof (saveAll_log _ _ _ _ _ _ _ _ E) as (Hvec & Hlog & Hall);
        apply saveAll_run in E;
        destruct E as (Honly & Hrows & Hpapers & Hok & Hko & Hwhy)
    end.

(** X13.  A question on a paper that the store does not hold, or holds
    without notes, fails with "No notes found" after the similarity search
    and the lookup: the model is not called, nothing is recorded and the
    store is as before. *)
Theorem qaOnPaper_without_notes (w : World) (question paperUrl : string)
        (st st' : State) (tr : list Event) (r : exn + list QAResponse) :
  qaOnPaper w question paperUrl st = (tr, st', r) ->
  (In (Called (GetPaper paperUrl) (Found None)) tr \/
   exists paper,
     In (Called (GetPaper paperUrl) (Found (Some paper))) tr /\
     row_notes paper = None) ->
  r = inl (Error "No notes found")
  /\ only [Database; Search; Log] tr
  /\ (exists outcome,
         In (Called (SimilaritySearch question 8 paperUrl) outcome) tr)
  /\ same_store st st'.
Proof.
  intros H Hmiss. unfold qaOnPaper in H. split_in H; unrun H.
  all: qa_facts.
  all: destruct Hmiss as [Hin|(paper & Hin & Hnone)].
  all: in_trace; try stray.
  all: try (injection Hin as Hp; subst; congruence).
  all: split; [reflexivity|].
  all: split; [auto 10 with trace|].
  all: split; [eexists; find_in|repeat split].
Qed.

Lemma qaOnPaper_without_notes_witness :
  exists tr st',
    qaOnPaper calm "q?" "v" storeWithPaper
    = (tr, st', inl (Error "No notes found"))
    /\ only [Database; Search; Log] tr.
Proof.
  eexists _, _. split; [vm_compute; reflexivity|].
  refine (proj1 (proj2 (qaOnPaper_without_notes calm "q?" "v" storeWithPaper
                          _ _ _ _ _))).
  - vm_compute. reflexivity.
  - left. find_in.
Defined.

Lemma savedRows_attempted (tr : list Event) (row : QaRow) :
  In row (savedRows tr) -> In row (saveAttempts tr).
Proof.
  induction tr as [|e tr IH]; [intros []|].
  destruct e as [f|c a|level label x]; cbn [savedRows saveAttempts]; auto.
  destruct c; auto.
  destruct a; cbn [In]; intuition auto.
Qed.

(** X14.  Question answering never changes the Papers nor the vector
    entries, and it never removes or alters a record of the QA log: the
    log keeps the records it had, in front, and every record added behind
    them is one that this run asked to save.  Nothing is said of the
    order in which the saves of one run land. *)
Theorem qaOnPaper_frame (w : World) (question paperUrl : string)
        (st st' : State) (tr : list Event) (r : exn + list QAResponse) :
  qaOnPaper w question paperUrl st = (tr, st', r) ->
  papers st' = papers st
  /\ vectors st' = vectors st
  /\ exists added,
      qaLog st' = qaLog st ++ added
      /\ forall row, In row added -> In row (saveAttempts tr).
Proof.
  intros H.
  assert (Hrun : papers st' = papers st /\ vectors st' = vectors st
                 /\ qaLog st' = qaLog st ++ savedRows tr).
  { unfold qaOnPaper in H. split_in H; unrun H.
    all: qa_facts.
    all: cbn [papers vectors qaLog savedRows app] in *.
    all: rewrite ?app_nil_r.
    all: repeat split; try assumption; try (symmetry; apply app_nil_r). }
  destruct Hrun as (Hpapers & Hvectors & Hlog).
  split; [exact Hpapers|]. split; [exact Hvectors|].
  exists (savedRows tr). split; [exact Hlog|].
  intros row. apply savedRows_attempted.
Qed.

Lemma qaOnPaper_frame_witness :
  exists tr st' r,
    qaOnPaper calm "q?" "u" storeWithPaper = (tr, st', r)
    /\ papers st' = papers storeWithPaper.
Proof.
  eexists _, _, _. split; [vm_compute; reflexivity|].
  exact (proj1 (qaOnPaper_frame calm "q?" "u" storeWithPaper
                  _ _ _ eq_refl)).
Defined.

(** X15.  When [qaOnPaper] returns answers, one record per answer has been
    added to the QA log, in the order of the answers, each with the text of
    the segments that was given to the model as its context. *)
Theorem qaOnPaper_records_answers (w : World) (question paperUrl : string)
        (st st' : State) (tr : list Event) (answers : list QAResponse) :
  qaOnPaper w question paperUrl st = (tr, st', inr answers) ->
  exists context notesText,
    In (Called (QaChain context notesText question) (Answers answers)) tr
    /\ qaLog st' = qaLog st ++ map (recordOf question context) answers.
Proof.
  intros H. unfold qaOnPaper in H. split_in H.
  all: apply pair_equal_spec in H as [H Hr];
       apply pair_equal_spec in H as [Htr Hst]; try discriminate Hr.
  all: injection Hr as <-; subst.
  all: qa_facts.
  all: do 2 eexists; split; [find_in|].
  all: rewrite Hlog; cbn [qaLog]; f_equal; eapply Hall; reflexivity.
Qed.

Lemma qaOnPaper_records_answers_witness :
  exists tr st' context,
    qaOnPaper blind "q?" "u" storeWithPaper = (tr, st', inr [qa1])
    /\ qaLog st' = [] ++ map (recordOf "q?" context) [qa1].
Proof.
  eexists _, _.
  assert (Hrun : qaOnPaper blind "q?" "u" storeWithPaper
                 = (_, _, inr [qa1])) by (vm_compute; reflexivity).
  destruct (qaOnPaper_records_answers blind "q?" "u" storeWithPaper _ _ _ Hrun)
    as (context & notesText & _ & Hlog).
  exists context. split; [exact Hrun|exact Hlog].
Defined.

Lemma orFallback_retrieved (documents : list Document) (paper : PaperRow) :
  documents <> [] -> orFallback documents paper = documents.
Proof.
  intros Hne. unfold orFallback. destruct documents; [congruence|reflexivity].
Qed.

(** X16.  Segments found by the similarity search are given to the model
    as they are: with a non-empty result no fallback segment is built,
    whatever the stored full text. *)
Theorem qaOnPaper_uses_retrieved (w : World) (question paperUrl : string)
        (st st' : State) (tr : list Event) (r : exn + list QAResponse) :
  qaOnPaper w question paperUrl st = (tr, st', r) ->
  forall docs paper notes,
    In (Called (SimilaritySearch question 8 paperUrl) (Segments docs)) tr ->
    docs <> [] ->
    In (Called (GetPaper paperUrl) (Found (Some paper))) tr ->
    row_notes paper = Some notes ->
    In (Enter (FnQaModel question docs notes)) tr
    /\ exists outcome,
        In (Called (QaChain (formatDocumentsAsString docs)
                            (String.concat lf (map note notes)) question)
                   outcome) tr.
Proof.
  intros H docs paper notes Hsearch Hne Hpaper Hnotes.
  unfold qaOnPaper in H. split_in H; unrun H.
  all: qa_runs.
  all: in_trace; try stray.
  all: injection Hpaper as Hp; subst.
  all: try congruence.
  all: match goal with
       | E1 : row_notes ?q = Some ?a, E2 : row_notes ?q = Some ?b |- _ =>
           assert (a = b) by congruence; subst
       end.
  all: injection Hsearch as Hs; subst.
  all: rewrite ?app_nil_r.
  all: rewrite !orFallback_retrieved in * by assumption.
  all: split; [find_in|eexists; find_in].
Qed.

Lemma qaOnPaper_uses_retrieved_witness :
  exists tr st' r,
    qaOnPaper calm "q?" "u" storeWithPaper = (tr, st', r)
    /\ In (Enter (FnQaModel "q?" [seg2] [note1])) tr.
Proof.
  eexists _, _, _. split; [vm_compute; reflexivity|].
  refine (proj1 (qaOnPaper_uses_retrieved calm "q?" "u" storeWithPaper
                   _ _ _ _ [seg2] storedPaper [note1] _ _ _ _)).
  - vm_compute. reflexivity.
  - cbn. tauto.
  - discriminate.
  - cbn. tauto.
  - reflexivity.
Defined.

(** X17.  The guard of [qaModel] is dead: an array, even empty, is truthy,
    so "No documents found" is never thrown.  Every run calls the model
    once, with the text of the segments and the notes joined by line
    feeds, and ends as that call ends; the store is not touched. *)
Theorem qaModel_always_calls_model (w : World) (question : string)
        (documents : list Document) (notes : list ArxivPaperNote)
        (st : State) :
  exists outcome st' r,
    qaModel w question documents notes st
    = ([Enter (FnQaModel question documents notes);
        Called (QaChain (formatDocumentsAsString documents)
                        (String.concat lf (map note notes)) question)
               outcome],
       st', r)
    /\ same_store st st'
    /\ r <> inl (Error "No documents found")
    /\ (forall answers, r = inr answers <-> outcome = Answers answers).
Proof.
  unfold qaModel. cbn [truthy_array negb].
  cbv beta iota zeta delta
    [bind enter emit await called settle report tick ret].
  cbn [clock papers qaLog vectors app].
  destruct (qaChain w (clock st) (formatDocumentsAsString documents)
                    (String.concat lf (map note notes)) question)
    as [answers|reason].
  all: do 3 eexists; split; [reflexivity|].
  all: split; [store_same|]; split; [discriminate|].
  all: intros a; split; intros H; try discriminate H; congruence.
Qed.

(** ** The routes: every failure becomes a response *)

Lemma message_or_truthy (w : World) (e : exn) :
  truthy (message_or w e "Internal Server Error") = true.
Proof.
  unfold message_or.
  destruct e as [m|reason]; [destruct m; reflexivity|].
  destruct (rejectionMessage w reason) as [[|c m]|]; reflexivity.
Qed.

Lemma message_or_cases (w : World) (e : exn) (fallback : string) :
  message_or w e fallback
  = match e with
    | Error message => if truthy message then message else fallback
    | Rejection reason =>
        match rejectionMessage w reason with
        | Some message => if truthy message then message else fallback
        | None => fallback
        end
    end.
Proof.
  unfold message_or. destruct e as [m|reason]; [reflexivity|].
  destruct (rejectionMessage w reason); reflexivity.
Qed.

(** X18.  [POST /take_notes] never throws.  When [paperUrl] or [name] is
    missing or empty it answers 400 and calls nothing.  When both are
    there it runs [takeNotes] once, with the parsed page numbers or with
    none, and answers 200 with the notes when it returns them; when it
    throws, the error is logged and the answer is 500 with a non-empty
    message: the message of the error when it has a non-empty one (an
    [Error], or a rejection value with a [message]), and "Internal Server
    Error" otherwise. *)
Theorem post_take_notes_always_responds (w : World)
        (body : Routes.TakeNotesBody) (st : State) :
  exists tr st' response,
    Routes.post_take_notes w body st = (tr, st', inr response)
    /\ if truthy_opt (Routes.body_paperUrl body)
          && truthy_opt (Routes.body_name body)
       then
         exists paperUrl name tr1 result,
           Routes.body_paperUrl body = Some paperUrl
           /\ Routes.body_name body = Some name
           /\ takeNotes w paperUrl name
                (Some (if truthy_opt (Routes.body_pagesToDelete body)
                       then Server.processPagesToDelete
                              (default "" (Routes.body_pagesToDelete body))
                       else [])) st
              = (tr1, st', result)
           /\ match result with
              | inr notes =>
                  response = Routes.SendNotes 200 notes /\ tr = tr1
              | inl e =>
                  tr = tr1 ++ [Console LError "/take_notes error:" e]
                  /\ exists error,
                      response = Routes.JsonError 500 error
                      /\ truthy error = true
                      /\ error
                         = match e with
                           | Error message =>
                               if truthy message then message
                               else "Internal Server Error"
                           | Rejection reason =>
                               match rejectionMessage w reason with
                               | Some message =>
                                   if truthy message then message
                                   else "Internal Server Error"
                               | None => "Internal Server Error"
                               end
                           end
              end
       else
         response = Routes.JsonError 400
                      "Missing required fields: paperUrl, name"
         /\ tr = [] /\ st' = st.
Proof.
  unfold Routes.post_take_notes.
  destruct (Routes.body_paperUrl body) as [paperUrl|];
    [|do 3 eexists; split; [reflexivity|]; repeat split].
  destruct (Routes.body_name body) as [name|];
    [|do 3 eexists; split; [reflexivity|]; cbn [truthy_opt];
      rewrite andb_false_r; repeat split].
  cbn [truthy_opt].
  destruct (truthy paperUrl && truthy name) eqn:Hfields;
    [|do 3 eexists; split; [reflexivity|]; repeat split].
  match goal with
  | |- context [takeNotes w paperUrl name ?pages] =>
      destruct (takeNotes w paperUrl name pages st) as [[tr1 st1] [e|notes]]
        eqn:Hrun
  end.
  - do 3 eexists. split.
    + unfold try_catch, bind. rewrite Hrun. reflexivity.
    + exists paperUrl, name. do 2 eexists.
      split; [reflexivity|]. split; [reflexivity|].
      split.
      * destruct (truthy_opt (Routes.body_pagesToDelete body)); exact Hrun.
      * split; [reflexivity|]. eexists. split; [reflexivity|].
        split; [apply message_or_truthy|apply message_or_cases].
  - do 3 eexists. split.
    + unfold try_catch, bind. rewrite Hrun. reflexivity.
    + exists paperUrl, name. do 2 eexists.
      split; [reflexivity|]. split; [reflexivity|].
      split.
      * destruct (truthy_opt (Routes.body_pagesToDelete body)); exact Hrun.
      * split; [reflexivity|]. cbn. apply app_nil_r.
Qed.

(** X19.  [POST /qa] never throws.  When [paperUrl] or [question] is
    missing or empty it answers 400 and calls nothing.  When both are
    there it runs [qaOnPaper] once and answers 200 with the answers when
    it returns them; when it throws, the error is logged and the answer
    is 500 with a non-empty message: the message of the error when it has
    a non-empty one, and "Internal Server Error" otherwise. *)
Theorem post_qa_always_responds (w : World) (body : Routes.QaBody)
        (st : State) :
  exists tr st' response,
    Routes.post_qa w body st = (tr, st', inr response)
    /\ if truthy_opt (Routes.qbody_paperUrl body)
          && truthy_opt (Routes.qbody_question body)
       then
         exists paperUrl question tr1 result,
           Routes.qbody_paperUrl body = Some paperUrl
           /\ Routes.qbody_question body = Some question
           /\ qaOnPaper w question paperUrl st = (tr1, st', result)
           /\ match result with
              | inr answers =>
                  response = Routes.SendAnswers 200 answers /\ tr = tr1
              | inl e =>
                  tr = tr1 ++ [Console LError "/qa error:" e]
                  /\ exists error,
                      response = Routes.JsonError 500 error
                      /\ truthy error = true
                      /\ error
                         = match e with
                           | Error message =>
                               if truthy message then message
                               else "Internal Server Error"
                           | Rejection reason =>
                               match rejectionMessage w reason with
                               | Some message =>
                                   if truthy message then message
                                   else "Internal Server Error"
                               | None => "Internal Server Error"
                               end
                           end
              end
       else
         response = Routes.JsonError 400
                      "Missing required fields: paperUrl, question"
         /\ tr = [] /\ st' = st.
Proof.
  unfold Routes.post_qa.
  destruct (Routes.qbody_paperUrl body) as [paperUrl|];
    [|do 3 eexists; split; [reflexivity|]; repeat split].
  destruct (Routes.qbody_question body) as [question|];
    [|do 3 eexists; split; [reflexivity|]; cbn [truthy_opt];
      rewrite andb_false_r; repeat split].
  cbn [truthy_opt].
  destruct (truthy paperUrl && truthy question) eqn:Hfields;
    [|do 3 eexists; split; [reflexivity|]; repeat split].
  destruct (qaOnPaper w question paperUrl st) as [[tr1 st1] [e|answers]]
    eqn:Hrun.
  - do 3 eexists. split.
    + unfold try_catch, bind. rewrite Hrun. reflexivity.
    + exists paperUrl, question. do 2 eexists.
      split; [reflexivity|]. split; [reflexivity|].
      split; [exact Hrun|].
      split; [reflexivity|]. eexists. split; [reflexivity|].
      split; [apply message_or_truthy|apply message_or_cases].
  - do 3 eexists. split.
    + unfold try_catch, bind. rewrite Hrun. reflexivity.
    + exists paperUrl, question. do 2 eexists.
      split; [reflexivity|]. split; [reflexivity|].
      split; [exact Hrun|].
      split; [reflexivity|]. cbn. apply app_nil_r.
Qed.

Lemma deletePages_entries_kept (pdf out : Buffer) (ps : list number) :
  deletePages pdf ps = inr out ->
  forall n, In n ps -> keptByPage n = true.
Proof.
  unfold deletePages. destruct pdf as [pages|bytes]; cbn [PDFDocument.load];
    [|discriminate].
  destruct (removePages pages 1 ps) as [e|pages'] eqn:H; [discriminate|].
  intros _ n Hn. apply removePages_success in H as (_ & _ & Hall).
  apply In_nth_error in Hn as (i & Hi).
  destruct (Hall i n Hi) as (p & -> & Hp).
  cbn. apply Z.ltb_lt. lia.
Qed.

Lemma takeNotes_invalid_pages (w : World) (paperUrl name : string)
      (ps : list number) (st st' : State) (tr : list Event)
      (r : exn + option (list ArxivPaperNote)) :
  takeNotes w paperUrl name (Some ps) st = (tr, st', r) ->
  (exists n, In n ps /\ keptByPage n = false) ->
  only [Database; Fetch; Edit; Log] tr
  /\ (forall notes, r = inr notes ->
        exists row, In (Called (GetPaper paperUrl) (Found (Some row))) tr).
Proof.
  intros H (n & Hn & Hbad). unfold takeNotes in H. split_in H; unrun H.
  all: try match goal with
         | E : deletePages _ _ = inr _ |- _ =>
             rewrite (deletePages_entries_kept _ _ _ E n Hn) in Hbad;
             discriminate Hbad
         end.
  all: try (destruct Hn; fail).
  all: helper_runs.
  all: split; [auto 12 with trace|].
  all: intros notes [=]; subst.
  all: eexists; find_in.
Qed.



(** ** The request parser, further *)

Lemma split_length (sep : ascii) (s : string) :
  length (split sep s) = S (countChar sep s).
Proof.
  induction s as [|a r IH]; [reflexivity|].
  cbn [split countChar]. destruct (Ascii.eqb a sep).
  - cbn [length]. rewrite IH. reflexivity.
  - destruct (split sep r) as [|tok toks]; [discriminate IH|].
    cbn [length] in *. lia.
Qed.

(** X21.  The server's parser returns one entry per comma-separated token,
    that is one more than the number of commas: it never returns the empty
    list, and an empty token gives an entry like any other. *)
Theorem server_processPagesToDelete_one_per_token (s : string) :
  length (Server.processPagesToDelete s) = S (countChar "," s).
Proof.
  unfold Server.processPagesToDelete. rewrite length_map. apply split_length.
Qed.

(** X22.  The page's parser is the server's parser followed by the filter:
    on every string, empty or not, it returns the entries of the server's
    result that pass [!Number.isNaN(n) && n > 0], in order, and nothing
    else; so it returns at most one entry per token, none of them [NaN]
    and each greater than 0. *)
Theorem web_processPagesToDelete_filters_server (s : string) :
  Web.processPagesToDelete s
  = List.filter keptByPage (Server.processPagesToDelete s)
  /\ Forall (fun n => isNaN n = false /\ gt n 0 = true)
            (Web.processPagesToDelete s)
  /\ (length (Web.processPagesToDelete s) <= S (countChar "," s))%nat.
Proof.
  assert (Heq : Web.processPagesToDelete s
                = List.filter keptByPage (Server.processPagesToDelete s)).
  { unfold Web.processPagesToDelete, Server.processPagesToDelete.
    destruct s as [|c s]; reflexivity. }
  split; [exact Heq|]. rewrite Heq. split.
  - apply Forall_forall. intros n Hn.
    apply list_elem_of_In, filter_In in Hn as [_ Hkept].
    unfold keptByPage in Hkept. apply andb_true_iff in Hkept as [Hnan Hpos].
    split; [apply negb_true_iff; exact Hnan|exact Hpos].
  - etransitivity; [apply List.filter_length_le|].
    unfold Server.processPagesToDelete. rewrite length_map, split_length.
    reflexivity.
Qed.

Lemma parseInt_core (s : string) : parseInt s = parseCore (trimStart s).
Proof. reflexivity. Qed.

Ltac each_ascii c :=
  destruct c as [[] [] [] [] [] [] [] []].

Lemma signPart_cons (c : ascii) (r : string) :
  signPart (String c r)
  = if Ascii.eqb c "-" then (-1, r)
    else if Ascii.eqb c "+" then (1, r) else (1, String c r).
Proof. each_ascii c; reflexivity. Qed.

Lemma radixPart_one (a : ascii) : radixPart (String a "") = (10, String a "").
Proof. each_ascii a; reflexivity. Qed.

Lemma radixPart_two (a b : ascii) (r : string) :
  radixPart (String a (String b r))
  = if Ascii.eqb a "0" && (Ascii.eqb b "x" || Ascii.eqb b "X")
    then (16, r) else (10, String a (String b r)).
Proof. each_ascii a; try reflexivity. each_ascii b; reflexivity. Qed.

Lemma whiteSpace_no_digit (R : Z) (c : ascii) :
  isWhiteSpace c = true -> radixDigit R c = None.
Proof. each_ascii c; intros H; try discriminate H; reflexivity. Qed.

Lemma whiteSpace_no_mark (c : ascii) :
  isWhiteSpace c = true ->
  Ascii.eqb c "-" = false /\ Ascii.eqb c "+" = false
  /\ Ascii.eqb c "0" = false /\ Ascii.eqb c "x" = false
  /\ Ascii.eqb c "X" = false.
Proof. each_ascii c; intros H; try discriminate H; repeat split. Qed.

Lemma append_nil_l (s : string) : ("" ++ s)%string = s.
Proof. reflexivity. Qed.

Lemma append_cons (c : ascii) (s t : string) :
  (String c s ++ t)%string = String c (s ++ t)%string.
Proof. reflexivity. Qed.

Lemma digitsPrefix_padded (R : Z) (s pad : string) :
  allWhiteSpace pad = true ->
  digitsPrefix R (s ++ pad)%string = digitsPrefix R s.
Proof.
  intros Hpad. induction s as [|c s IH];
    rewrite ?append_cons, ?append_nil_l; cbn [digitsPrefix].
  - destruct pad as [|c pad]; [reflexivity|].
    cbn [allWhiteSpace] in Hpad. apply andb_true_iff in Hpad as [Hc _].
    cbn [digitsPrefix]. rewrite (whiteSpace_no_digit R c Hc). reflexivity.
  - destruct (radixDigit R c); [rewrite IH|]; reflexivity.
Qed.

Lemma digitsPart_padded (sign : Z) (s pad : string) :
  allWhiteSpace pad = true ->
  digitsPart sign (s ++ pad)%string = digitsPart sign s.
Proof.
  intros Hpad. unfold digitsPart.
  destruct s as [|a [|b s]].
  - destruct pad as [|c [|d pad]]; [reflexivity| |].
    + cbn [allWhiteSpace] in Hpad. rewrite andb_true_r in Hpad.
      rewrite ?append_cons, ?append_nil_l. rewrite radixPart_one. cbn [digitsPrefix].
      rewrite (whiteSpace_no_digit 10 c Hpad). reflexivity.
    + cbn [allWhiteSpace] in Hpad. apply andb_true_iff in Hpad as [Hc _].
      rewrite ?append_cons, ?append_nil_l. rewrite radixPart_two.
      destruct (whiteSpace_no_mark c Hc) as (_ & _ & -> & _).
      cbn [andb digitsPrefix].
      rewrite (whiteSpace_no_digit 10 c Hc). reflexivity.
  - destruct pad as [|c pad]; [reflexivity|].
    cbn [allWhiteSpace] in Hpad. apply andb_true_iff in Hpad as [Hc Hpad].
    rewrite ?append_cons, ?append_nil_l. rewrite radixPart_two, radixPart_one.
    destruct (whiteSpace_no_mark c Hc) as (_ & _ & _ & -> & ->).
    rewrite andb_false_r.
    change (String a (String c pad)) with (String a "" ++ String c pad)%string.
    rewrite digitsPrefix_padded; [reflexivity|].
    cbn [allWhiteSpace]. rewrite Hc, Hpad. reflexivity.
  - rewrite ?append_cons, ?append_nil_l. rewrite !radixPart_two.
    destruct (Ascii.eqb a "0" && (Ascii.eqb b "x" || Ascii.eqb b "X")).
    + rewrite digitsPrefix_padded by assumption. reflexivity.
    + change (String a (String b (s ++ pad)))
        with (String a (String b s) ++ pad)%string.
      rewrite digitsPrefix_padded by assumption. reflexivity.
Qed.

Lemma parseCore_padded (s pad : string) :
  allWhiteSpace pad = true -> parseCore (s ++ pad)%string = parseCore s.
Proof.
  intros Hpad. unfold parseCore. destruct s as [|c s].
  - destruct pad as [|c pad]; [reflexivity|].
    cbn [allWhiteSpace] in Hpad. apply andb_true_iff in Hpad as [Hc Hpad'].
    rewrite ?append_cons, ?append_nil_l. rewrite signPart_cons.
    destruct (whiteSpace_no_mark c Hc) as (-> & -> & _).
    change (String c pad) with ("" ++ String c pad)%string.
    apply digitsPart_padded. cbn [allWhiteSpace]. rewrite Hc, Hpad'.
    reflexivity.
  - rewrite ?append_cons, ?append_nil_l. rewrite !signPart_cons.
    destruct (Ascii.eqb c "-"); [apply digitsPart_padded; assumption|].
    destruct (Ascii.eqb c "+"); [apply digitsPart_padded; assumption|].
    change (String c (s ++ pad)) with (String c s ++ pad)%string.
    apply digitsPart_padded; assumption.
Qed.

Lemma trimEnd_padding (s : string) :
  exists pad, s = (trimEnd s ++ pad)%string /\ allWhiteSpace pad = true.
Proof.
  induction s as [|c s (pad & Hs & Hpad)]; [exists ""; split; reflexivity|].
  cbn [trimEnd]. destruct (trimEnd s) as [|d t] eqn:Ht.
  - rewrite append_nil_l in Hs. subst pad.
    destruct (isWhiteSpace c) eqn:Hc.
    + exists (String c s). split; [reflexivity|].
      cbn [allWhiteSpace]. rewrite Hc, Hpad. reflexivity.
    + exists s. split; [reflexivity|exact Hpad].
  - exists pad. rewrite append_cons, <- Hs. split; [reflexivity|exact Hpad].
Qed.

Lemma trimStart_idempotent_after_trimEnd (s : string) :
  trimStart (trimEnd (trimStart s)) = trimEnd (trimStart s).
Proof.
  assert (Hhead : trimStart s = "" \/
                  exists c r, trimStart s = String c r
                              /\ isWhiteSpace c = false).
  { induction s as [|c s IH]; [left; reflexivity|].
    cbn. destruct (isWhiteSpace c) eqn:Hc; [exact IH|].
    right. exists c, s. split; [reflexivity|exact Hc]. }
  destruct Hhead as [->|(c & r & -> & Hc)]; [reflexivity|].
  cbn [trimEnd]. destruct (trimEnd r); rewrite ?Hc; cbn; rewrite Hc;
    reflexivity.
Qed.

Lemma parseInt_trimmed (s : string) : parseInt (trim s) = parseInt s.
Proof.
  rewrite !parseInt_core. unfold trim.
  rewrite trimStart_idempotent_after_trimEnd.
  destruct (trimEnd_padding (trimStart s)) as (pad & Hs & Hpad).
  rewrite Hs at 2. symmetry. apply parseCore_padded. exact Hpad.
Qed.

(** X23.  Trimming a token before [parseInt], as both parsers do, never
    changes the result: [parseInt] skips the white space in front itself
    and stops at the white space behind.  So the server's parser is
    [parseInt] applied to every comma-separated token as it stands. *)
Theorem parseInt_trim (s : string) :
  parseInt (trim s) = parseInt s
  /\ Server.processPagesToDelete s = map parseInt (split "," s).
Proof.
  split; [apply parseInt_trimmed|].
  unfold Server.processPagesToDelete. apply map_ext. intros tok.
  apply parseInt_trimmed.
Qed.

(** ** The page *)

(** X24.  Whatever becomes of its request, [onPaperSubmit] sends exactly one
    request, to [/api/take_notes], with the values of the form as they were
    typed (the page-list string is not parsed on the page); it ends with
    the loading flag cleared, the answers and the QA error of the previous
    paper gone, and exactly one of the notes and the notes error set. *)
Theorem onPaperSubmit_settles
        (net : Page.Fetched (list ArxivPaperNote))
        (values : Page.SubmitPaperForm) (s : Page.PageState) :
  let r := Page.onPaperSubmit net values s in
  Page.posts (fst r) = [("/api/take_notes", Page.TakeNotesPayload values)] /\
  Page.notesLoading (snd r) = false /\
  Page.submitDisabled (snd r) = false /\
  Page.answers (snd r) = None /\
  Page.qaError (snd r) = None /\
  Page.qaLoading (snd r) = Page.qaLoading s /\
  (Page.notes (snd r) = None <-> Page.notesError (snd r) <> None).
Proof.
  unfold Page.onPaperSubmit.
  destruct (Page.received net) as [err|data]; cbn;
    repeat split; try reflexivity; try congruence; intros; congruence.
Qed.

(** X25.  [onQuestionSubmit] guards on the submitted form, not on the notes:
    after any [onPaperSubmit], failed or not, it sends the question to
    [/api/qa] with the URL of that form.  After a failed submit only the
    disabled button stands between the user and that request. *)
Theorem onQuestionSubmit_asks_about_last_submission
        (net0 : Page.Fetched (list ArxivPaperNote))
        (values : Page.SubmitPaperForm) (s : Page.PageState)
        (net : Page.Fetched (list QAResponse)) (question : string) :
  let s1 := snd (Page.onPaperSubmit net0 values s) in
  let r := Page.onQuestionSubmit net question s1 in
  Page.posts (fst r)
  = [("/api/qa", Page.QaPayload question (Page.form_paperUrl values))] /\
  Page.qaLoading (snd r) = false /\
  (Page.askDisabled s1 = false <->
   Page.qaLoading s = false /\ exists data, Page.received net0 = inr data).
Proof.
  unfold Page.onPaperSubmit, Page.onQuestionSubmit, Page.askDisabled.
  destruct (Page.received net0) as [err|data];
    destruct (Page.received net) as [err'|result]; cbn;
    (split; [reflexivity|]); (split; [reflexivity|]);
    rewrite ?orb_true_r, ?orb_false_r; split.
  all: try (intros H; discriminate H).
  all: try (intros [_ [d Hd]]; discriminate Hd).
  all: try (intros H; split; [exact H | eexists; reflexivity]).
  all: intros [H _]; exact H.
Qed.

(** X26.  A question that fails leaves the answers of the previous question
    on the page and sets the QA error to the message of the failure;
    without a submitted paper nothing is sent and the state is untouched.
    Whatever happens, the handler never touches the notes, the notes error,
    the submitted form or the other loading flag. *)
Theorem onQuestionSubmit_failure_keeps_answers
        (net : Page.Fetched (list QAResponse)) (question : string)
        (s : Page.PageState) (err : Page.thrown)
        (Hfail : Page.received net = inl err) :
  let r := Page.onQuestionSubmit net question s in
  Page.answers (snd r) = Page.answers s /\
  Page.notes (snd r) = Page.notes s /\
  Page.notesError (snd r) = Page.notesError s /\
  Page.notesLoading (snd r) = Page.notesLoading s /\
  Page.submittedPaperData (snd r) = Page.submittedPaperData s /\
  match Page.submittedPaperData s with
  | None => r = ([Page.Alert "Please submit a paper first"], s)
  | Some _ =>
      Page.qaError (snd r) = Some (Page.messageOf err "Failed to run QA") /\
      Page.qaLoading (snd r) = false /\
      In (Page.ConsoleError err) (fst r)
  end.
Proof.
  unfold Page.onQuestionSubmit.
  destruct (Page.submittedPaperData s) as [submitted|] eqn:Hs.
  - rewrite Hfail. cbn. rewrite Hs. repeat split; try reflexivity.
    right. left. reflexivity.
  - cbn. rewrite Hs. repeat split; reflexivity.
Qed.

Lemma onQuestionSubmit_failure_keeps_answers_witness :
  let s := Page.setAnswers (Some [Scenario.qa1])
             (Page.setSubmittedPaperData
                (Some (Page.mkForm "p" "https://x/y.pdf" None)) Page.initial) in
  Page.answers
    (snd (Page.onQuestionSubmit (Page.FetchRejected Page.OtherValue) "q" s))
  = Some [Scenario.qa1].
Proof.
  intros s.
  refine (proj1 (onQuestionSubmit_failure_keeps_answers
                   (Page.FetchRejected Page.OtherValue) "q" s
                   Page.OtherValue _)).
  reflexivity.
Defined.

(** X27.  A response that is not [ok] never yields notes, whatever its
    body and status: the notes stay unset, the error is logged and the
    notes error is set.  It is the [error] field of the body when that is a
    non-empty string, and "Server error: " followed by the status when the
    body cannot be read, has no such field or has a falsy one.  A truthy
    field that is not a string gives the message of the [Error] built from
    it, which is empty for an empty array. *)
Theorem onPaperSubmit_not_ok
        (status : Z) (errorField : option Page.JsonValue)
        (data : Page.thrown + list ArxivPaperNote)
        (values : Page.SubmitPaperForm) (s : Page.PageState) :
  let r := Page.onPaperSubmit (Page.Responded false status errorField data)
                              values s in
  let message :=
    match errorField with
    | Some (Page.JsonString text) =>
        if truthy text then text
        else ("Server error: " ++ pretty status)%string
    | Some (Page.JsonOther isTruthy text) =>
        if isTruthy then text
        else ("Server error: " ++ pretty status)%string
    | None => ("Server error: " ++ pretty status)%string
    end in
  Page.notes (snd r) = None
  /\ Page.notesError (snd r) = Some message
  /\ fst r = [Page.Post "/api/take_notes" (Page.TakeNotesPayload values);
              Page.ConsoleError (Page.ErrorObject message)].
Proof.
  destruct errorField as [[text|isTruthy text]|]; cbn;
    repeat split; reflexivity.
Qed.
